(** * Hotel front desk and auto-checkout: the store, the SQL routine and
      the client API, embedded as functions on a database state.

    Sources embedded here:
    - [supabase/migrations/20250824082828_jolly_sun.sql]: the five tables
      and the plpgsql function [auto_checkout_rooms];
    - the client module exporting [hotelAPI], [roomAPI], [bookingAPI] and
      [autoCheckoutAPI] (the supabase-js calls);
    - [BookingSystem.handleBookingSubmit], the only caller of
      [bookingAPI.createBooking].

    Conventions.
    - A [uuid] is a string, as in the TypeScript interfaces; the keys of
      the store are uuids as the store spells them, and an id passed by the
      client is read as Postgres reads it ([uuid_in]).  A keyed table
      is a [gmap] from the primary key to the row, so the primary-key
      constraint holds by construction; the row records do not repeat the
      key.  The two audit tables are only ever appended to and their
      generated keys are never read: they are lists of rows.
    - A [timestamptz] is a number of seconds since the epoch in the session
      time zone and a [date] is a number of days since the epoch, so that
      SQL's [DATE(ts)] is the floor division by 86400.
    - A [decimal(10,2)] is a number of hundredths.
    - Row fields have the types of the TypeScript interfaces: a field
      marked optional there is an [option]; so are the foreign keys of a
      booking and of a log row, which an insert may leave NULL.  [status]
      and [payment_status] are the enumerations of the interfaces (the SQL
      CHECK constraints allow exactly these values).
    - Row-level-security policies are not modelled: the caller is taken to
      be the owner of the hotel. *)

From Stdlib Require Import ZArith Ascii String List Lia.
From stdpp Require Import base decidable option list gmap strings sorting fin_maps.

Abbreviation uuid := string (only parsing).
Abbreviation timestamptz := Z (only parsing).
Abbreviation date := Z (only parsing).
Abbreviation decimal := Z (only parsing).

(** ** Time *)

(** [DATE(ts)]: the calendar day of a timestamp. *)
Definition DATE (ts : timestamptz) : date := (ts `div` 86400)%Z.

(** [CURRENT_DATE] inside a transaction whose [now()] is [now]. *)
Definition CURRENT_DATE (now : timestamptz) : date := DATE now.

(** ** Enumerations *)

Inductive room_status := available | occupied | maintenance | cleaning.
Inductive booking_status := confirmed | checked_in | checked_out | cancelled.
Inductive payment_status := pending | paid | refunded.

#[global] Instance room_status_eq_dec : EqDecision room_status.
Proof. solve_decision. Defined.
#[global] Instance booking_status_eq_dec : EqDecision booking_status.
Proof. solve_decision. Defined.
#[global] Instance payment_status_eq_dec : EqDecision payment_status.
Proof. solve_decision. Defined.

(** ** Rows *)

Module Hotel.
Record t := mk {
  name : string;
  owner_id : uuid;
  address : option string;
  phone : option string;
  email : option string;
  checkout_time : string;
  created_at : timestamptz;
  updated_at : timestamptz
}.
End Hotel.

Module Room.
Record t := mk {
  hotel_id : uuid;
  room_number : string;
  room_type : string;
  status : room_status;
  price_per_night : decimal;
  max_occupancy : Z;
  amenities : option (list string);
  last_checkout : option timestamptz;
  auto_checkout_enabled : bool;
  created_at : timestamptz;
  updated_at : timestamptz
}.

(** [SET status = s] *)
Definition set_status (s : room_status) (r : t) : t :=
  mk (hotel_id r) (room_number r) (room_type r) s (price_per_night r)
     (max_occupancy r) (amenities r) (last_checkout r)
     (auto_checkout_enabled r) (created_at r) (updated_at r).

(** [SET status = s, last_checkout = lc] *)
Definition set_status_last_checkout (s : room_status) (lc : timestamptz) (r : t) : t :=
  mk (hotel_id r) (room_number r) (room_type r) s (price_per_night r)
     (max_occupancy r) (amenities r) (Some lc)
     (auto_checkout_enabled r) (created_at r) (updated_at r).

(** [SET status = s, last_checkout = lc, updated_at = u] *)
Definition set_status_last_checkout_updated
    (s : room_status) (lc u : timestamptz) (r : t) : t :=
  mk (hotel_id r) (room_number r) (room_type r) s (price_per_night r)
     (max_occupancy r) (amenities r) (Some lc)
     (auto_checkout_enabled r) (created_at r) u.
End Room.

Module Booking.
Record t := mk {
  hotel_id : option uuid;
  room_id : option uuid;
  guest_name : string;
  guest_email : option string;
  guest_phone : option string;
  check_in_date : date;
  check_out_date : date;
  actual_check_in : option timestamptz;
  actual_check_out : option timestamptz;
  status : booking_status;
  total_amount : decimal;
  payment_status : payment_status;
  auto_checkout : bool;
  created_at : timestamptz;
  updated_at : timestamptz
}.

(** [SET status = 'checked_in', actual_check_in = t_in, updated_at = t_upd] *)
Definition set_checked_in (t_in t_upd : timestamptz) (b : t) : t :=
  mk (hotel_id b) (room_id b) (guest_name b) (guest_email b) (guest_phone b)
     (check_in_date b) (check_out_date b) (Some t_in) (actual_check_out b)
     checked_in (total_amount b) (payment_status b) (auto_checkout b)
     (created_at b) t_upd.

(** [SET status = 'checked_out', actual_check_out = t_out, updated_at = t_upd] *)
Definition set_checked_out (t_out t_upd : timestamptz) (b : t) : t :=
  mk (hotel_id b) (room_id b) (guest_name b) (guest_email b) (guest_phone b)
     (check_in_date b) (check_out_date b) (actual_check_in b) (Some t_out)
     checked_out (total_amount b) (payment_status b) (auto_checkout b)
     (created_at b) t_upd.

(** [SET status = 'checked_out', actual_check_out = now(),
    auto_checkout = true, updated_at = now()] *)
Definition set_auto_checked_out (now : timestamptz) (b : t) : t :=
  mk (hotel_id b) (room_id b) (guest_name b) (guest_email b) (guest_phone b)
     (check_in_date b) (check_out_date b) (actual_check_in b) (Some now)
     checked_out (total_amount b) (payment_status b) true
     (created_at b) now.
End Booking.

Module AutoCheckoutLog.
Record t := mk {
  hotel_id : option uuid;
  room_id : option uuid;
  booking_id : option uuid;
  checkout_time : timestamptz;
  reason : string;
  created_at : timestamptz
}.
End AutoCheckoutLog.

Module RoomStatusHistory.
Record t := mk {
  room_id : option uuid;
  old_status : option string;
  new_status : option string;
  changed_by : option uuid;
  change_reason : option string;
  created_at : timestamptz
}.
End RoomStatusHistory.

(** ** The database *)

Record db := mkdb {
  hotels : gmap uuid Hotel.t;
  rooms : gmap uuid Room.t;
  bookings : gmap uuid Booking.t;
  auto_checkout_logs : list AutoCheckoutLog.t;
  room_status_history : list RoomStatusHistory.t
}.

Definition with_rooms (rs : gmap uuid Room.t) (d : db) : db :=
  mkdb (hotels d) rs (bookings d) (auto_checkout_logs d) (room_status_history d).
Definition with_bookings (bs : gmap uuid Booking.t) (d : db) : db :=
  mkdb (hotels d) (rooms d) bs (auto_checkout_logs d) (room_status_history d).
Definition with_auto_checkout_logs (ls : list AutoCheckoutLog.t) (d : db) : db :=
  mkdb (hotels d) (rooms d) (bookings d) ls (room_status_history d).
Definition with_room_status_history (hs : list RoomStatusHistory.t) (d : db) : db :=
  mkdb (hotels d) (rooms d) (bookings d) (auto_checkout_logs d) hs.

(** ** The plpgsql function [auto_checkout_rooms()]

    [now] is the transaction's [now()]; the four statements run in order,
    each on the state the previous one left. *)

(** [WHERE status = 'checked_in' AND check_out_date <= CURRENT_DATE] *)
Definition expired_where (now : timestamptz) (b : Booking.t) : bool :=
  bool_decide (Booking.status b = checked_in)
  && (Booking.check_out_date b <=? CURRENT_DATE now)%Z.

(** [WHERE status = 'checked_out' AND auto_checkout = true
          AND DATE(actual_check_out) = CURRENT_DATE]
    (a NULL [actual_check_out] makes the comparison NULL: the row is not
    selected). *)
Definition auto_checked_out_today_where (now : timestamptz) (b : Booking.t) : bool :=
  bool_decide (Booking.status b = checked_out)
  && Booking.auto_checkout b
  && match Booking.actual_check_out b with
     | Some t => (DATE t =? CURRENT_DATE now)%Z
     | None => false
     end.

(** [WHERE r.status = 'available' AND DATE(r.last_checkout) = CURRENT_DATE] *)
Definition checked_out_today_where (now : timestamptz) (r : Room.t) : bool :=
  bool_decide (Room.status r = available)
  && match Room.last_checkout r with
     | Some t => (DATE t =? CURRENT_DATE now)%Z
     | None => false
     end.

(** Statement 1: [UPDATE bookings SET ... WHERE ...]. *)
Definition update_bookings (now : timestamptz) (bs : gmap uuid Booking.t)
    : gmap uuid Booking.t :=
  (λ b, if expired_where now b then Booking.set_auto_checked_out now b else b) <$> bs.

(** [SELECT DISTINCT room_id FROM bookings WHERE ...] *)
Definition auto_checked_out_room_ids (now : timestamptz) (bs : gmap uuid Booking.t)
    : gset uuid :=
  list_to_set
    (omap (λ kb : uuid * Booking.t,
             if auto_checked_out_today_where now kb.2
             then Booking.room_id kb.2 else None)
          (map_to_list bs)).

(** Statement 2: [UPDATE rooms SET ... WHERE id IN (...)]. *)
Definition update_rooms (now : timestamptz) (bs : gmap uuid Booking.t)
    (rs : gmap uuid Room.t) : gmap uuid Room.t :=
  map_imap (λ id r,
      Some (if bool_decide (id ∈ auto_checked_out_room_ids now bs)
            then Room.set_status_last_checkout_updated available now now r
            else r)) rs.

(** Statement 3: the rows of [INSERT INTO auto_checkout_logs ... SELECT]. *)
Definition auto_checkout_log_rows (now : timestamptz) (bs : gmap uuid Booking.t)
    : list AutoCheckoutLog.t :=
  (λ kb : uuid * Booking.t,
     AutoCheckoutLog.mk (Booking.hotel_id kb.2) (Booking.room_id kb.2)
       (Some kb.1) now "daily_auto_checkout_10am" now)
  <$> filter (λ kb : uuid * Booking.t, auto_checked_out_today_where now kb.2 = true)
        (map_to_list bs).

(** Statement 4: the rows of [INSERT INTO room_status_history ... SELECT]. *)
Definition room_status_history_rows (now : timestamptz) (rs : gmap uuid Room.t)
    : list RoomStatusHistory.t :=
  (λ kr : uuid * Room.t,
     RoomStatusHistory.mk (Some kr.1) (Some "occupied") (Some "available")
       None (Some "auto_checkout_daily_10am") now)
  <$> filter (λ kr : uuid * Room.t, checked_out_today_where now kr.2 = true)
        (map_to_list rs).

Definition auto_checkout_rooms (now : timestamptz) (d : db) : db :=
  let d1 := with_bookings (update_bookings now (bookings d)) d in
  let d2 := with_rooms (update_rooms now (bookings d1) (rooms d1)) d1 in
  let d3 := with_auto_checkout_logs
              (auto_checkout_logs d2 ++ auto_checkout_log_rows now (bookings d2)) d2 in
  with_room_status_history
    (room_status_history d3 ++ room_status_history_rows now (rooms d3)) d3.

(** ** The client API

    Every supabase-js request resolves to [{ data, error }]; it never
    throws.  A request either reaches the store ([delivered]) or does not
    ([failed]: the store is unchanged and [error] is set); a request that
    the store applies but whose answer is lost on the way back is not
    modelled.  The readings of the client clock ([new Date()]) are
    parameters, one per call in the source. *)

Inductive error :=
  | PGRST116                                 (* [.single()]: not exactly one row *)
  | invalid_text_representation              (* 22P02: not the text of a uuid *)
  | not_null_violation (column : string)     (* 23502 *)
  | unique_violation                         (* 23505 *)
  | foreign_key_violation (column : string)  (* 23503 *)
  | numeric_value_out_of_range               (* 22003 *)
  | fetch_error.

Inductive result (A : Type) :=
  | Ok (data : A)
  | Err (e : error).
Arguments Ok {A} data.
Arguments Err {A} e.

Inductive transport := delivered | failed.

(** *** Ids sent by the client

    An id arrives as a string and the store reads it as a uuid.  This is
    [string_to_uuid] of Postgres: an optional opening brace, sixteen bytes
    of two hexadecimal digits each, an optional hyphen after every second
    byte except the last, the closing brace if there was an opening one,
    and nothing after.  The uuid is written back in lower case with hyphens
    after 8, 12, 16 and 20 digits, which is how the keys of the store are
    spelt. *)
Definition is_xdigit (c : ascii) : bool :=
  let n := nat_of_ascii c in
  (48 <=? n) && (n <=? 57) || (97 <=? n) && (n <=? 102) || (65 <=? n) && (n <=? 70).

Definition to_lower (c : ascii) : ascii :=
  let n := nat_of_ascii c in
  if (65 <=? n) && (n <=? 90) then ascii_of_nat (n + 32) else c.

(** [n] bytes from byte number [i] on: their digits in lower case and the
    rest of the text. *)
Fixpoint uuid_bytes (n i : nat) (src : list ascii) : option (list ascii * list ascii) :=
  match n with
  | 0 => Some ([], src)
  | S n' =>
      match src with
      | c1 :: c2 :: rest =>
          if is_xdigit c1 && is_xdigit c2 then
            let rest' :=
              match rest with
              | c :: r =>
                  if bool_decide (c = "-"%char) && Nat.odd i && (i <? 15)
                  then r else rest
              | [] => rest
              end in
            match uuid_bytes n' (S i) rest' with
            | Some (ds, tl) => Some (to_lower c1 :: to_lower c2 :: ds, tl)
            | None => None
            end
          else None
      | _ => None
      end
  end.

Definition uuid_out (ds : list ascii) : uuid :=
  string_of_list_ascii
    (take 8 ds ++ "-"%char :: take 4 (drop 8 ds) ++ "-"%char :: take 4 (drop 12 ds)
     ++ "-"%char :: take 4 (drop 16 ds) ++ "-"%char :: drop 20 ds).

Definition uuid_in (text : string) : option uuid :=
  let src := list_ascii_of_string text in
  let braces := match src with c :: _ => bool_decide (c = "{"%char) | [] => false end in
  match uuid_bytes 16 0 (if braces then drop 1 src else src) with
  | Some (ds, tl) =>
      if braces
      then match tl with
           | [c] => if bool_decide (c = "}"%char) then Some (uuid_out ds) else None
           | _ => None
           end
      else match tl with
           | [] => Some (uuid_out ds)
           | _ => None
           end
  | None => None
  end.

(** [.eq('id', id)] followed by [.single()]: the row whose key the id
    denotes.  A string that is a key of the table denotes that key; any
    other string is read by [uuid_in], which fails with 22P02 or gives a
    uuid that is the key of one row or of none (PGRST116). *)
Definition single_by_id {V} (id : string) (t : gmap uuid V) : result (uuid * V) :=
  match t !! id with
  | Some v => Ok (id, v)
  | None =>
      match uuid_in id with
      | None => Err invalid_text_representation
      | Some u =>
          match t !! u with
          | Some v => Ok (u, v)
          | None => Err PGRST116
          end
      end
  end.

(** [UPDATE rooms SET ... WHERE id = room_id]: a NULL or unknown [room_id]
    matches no row. *)
Definition update_room (f : Room.t → Room.t) (room_id : option uuid)
    (rs : gmap uuid Room.t) : gmap uuid Room.t :=
  match room_id with
  | Some r => alter f r rs
  | None => rs
  end.

(** [bookingAPI.checkIn] *)
Definition checkIn (first second : transport) (t_in t_upd : timestamptz)
    (bookingId : uuid) (d : db) : result Booking.t * db :=
  match first with
  | failed => (Err fetch_error, d)
  | delivered =>
    match single_by_id bookingId (bookings d) with
    | Err e => (Err e, d)
    | Ok (id, b) =>
      let data := Booking.set_checked_in t_in t_upd b in
      let d1 := with_bookings (<[id := data]> (bookings d)) d in
      let d2 :=
        match second with
        | delivered =>
            with_rooms (update_room (Room.set_status occupied)
                          (Booking.room_id data) (rooms d1)) d1
        | failed => d1
        end in
      (Ok data, d2)
    end
  end.

(** [bookingAPI.checkOut] *)
Definition checkOut (first second : transport) (t_out t_upd t_room : timestamptz)
    (bookingId : uuid) (d : db) : result Booking.t * db :=
  match first with
  | failed => (Err fetch_error, d)
  | delivered =>
    match single_by_id bookingId (bookings d) with
    | Err e => (Err e, d)
    | Ok (id, b) =>
      let data := Booking.set_checked_out t_out t_upd b in
      let d1 := with_bookings (<[id := data]> (bookings d)) d in
      let d2 :=
        match second with
        | delivered =>
            with_rooms (update_room (Room.set_status_last_checkout available t_room)
                          (Booking.room_id data) (rooms d1)) d1
        | failed => d1
        end in
      (Ok data, d2)
    end
  end.

(** [autoCheckoutAPI.triggerAutoCheckout]: the rpc runs the function in one
    transaction at the store's [now()]. *)
Definition triggerAutoCheckout (net : transport) (now : timestamptz) (d : db)
    : result unit * db :=
  match net with
  | failed => (Err fetch_error, d)
  | delivered => (Ok tt, auto_checkout_rooms now d)
  end.

(** *** Inserting a booking *)

#[global] Instance result_ret : MRet result := @Ok.
#[global] Instance result_bind : MBind result := λ A B f r,
  match r with
  | Ok a => f a
  | Err e => Err e
  end.

(** [Partial<Booking>]: every field may be left out. *)
Module PartialBooking.
Record t := mk {
  id : option uuid;
  hotel_id : option uuid;
  room_id : option uuid;
  guest_name : option string;
  guest_email : option string;
  guest_phone : option string;
  check_in_date : option date;
  check_out_date : option date;
  actual_check_in : option timestamptz;
  actual_check_out : option timestamptz;
  status : option booking_status;
  total_amount : option decimal;
  payment_status : option payment_status;
  auto_checkout : option bool;
  created_at : option timestamptz;
  updated_at : option timestamptz
}.
End PartialBooking.

(** A [NOT NULL] column without default. *)
Definition not_null {A} (column : string) (o : option A) : result A :=
  match o with
  | Some a => Ok a
  | None => Err (not_null_violation column)
  end.

Definition check (ok : bool) (e : error) : result unit :=
  if ok then Ok tt else Err e.

(** [REFERENCES t(id)]: a NULL reference is accepted. *)
Definition references {V} (k : option uuid) (t : gmap uuid V) : bool :=
  match k with
  | Some i => bool_decide (is_Some (t !! i))
  | None => true
  end.

(** The row that [INSERT INTO bookings] builds from the given columns and
    the column defaults of the table.  The amount is coerced to
    [decimal(10,2)] when the row is built, before the [NOT NULL]
    constraints are checked. *)
Definition bookings_row (now : timestamptz) (p : PartialBooking.t) : result Booking.t :=
  let total_amount := default 0%Z (PartialBooking.total_amount p) in
  _ ← check (Z.abs total_amount <? 10 ^ 10)%Z numeric_value_out_of_range;
  guest_name ← not_null "guest_name" (PartialBooking.guest_name p);
  check_in_date ← not_null "check_in_date" (PartialBooking.check_in_date p);
  check_out_date ← not_null "check_out_date" (PartialBooking.check_out_date p);
  Ok (Booking.mk
        (PartialBooking.hotel_id p) (PartialBooking.room_id p)
        guest_name (PartialBooking.guest_email p) (PartialBooking.guest_phone p)
        check_in_date check_out_date
        (PartialBooking.actual_check_in p) (PartialBooking.actual_check_out p)
        (default confirmed (PartialBooking.status p))
        total_amount
        (default pending (PartialBooking.payment_status p))
        (default false (PartialBooking.auto_checkout p))
        (default now (PartialBooking.created_at p))
        (default now (PartialBooking.updated_at p))).

(** [INSERT INTO bookings ... RETURNING *], with the constraints of the
    table: primary key and the two foreign keys. *)
Definition insert_bookings (now : timestamptz) (gen_random_uuid : uuid)
    (p : PartialBooking.t) (d : db) : result (uuid * Booking.t) :=
  row ← bookings_row now p;
  let id := default gen_random_uuid (PartialBooking.id p) in
  _ ← check (bool_decide (bookings d !! id = None)) unique_violation;
  _ ← check (references (Booking.hotel_id row) (hotels d))
        (foreign_key_violation "hotel_id");
  _ ← check (references (Booking.room_id row) (rooms d))
        (foreign_key_violation "room_id");
  Ok (id, row).

(** [bookingAPI.createBooking] *)
Definition createBooking (net : transport) (now : timestamptz)
    (gen_random_uuid : uuid) (booking : PartialBooking.t) (d : db)
    : result (uuid * Booking.t) * db :=
  match net with
  | failed => (Err fetch_error, d)
  | delivered =>
    match insert_bookings now gen_random_uuid booking d with
    | Err e => (Err e, d)
    | Ok data => (Ok data, with_bookings (<[data.1 := data.2]> (bookings d)) d)
    end
  end.

(** *** The booking form ([BookingSystem]) *)

Record BookingFormData := mkBookingFormData {
  guestName : string;
  guestEmail : string;
  guestPhone : string;
  checkInDate : date;
  checkOutDate : date;
  totalAmount : decimal
}.

(** [calculateTotal]: nights times the room's price. *)
Definition calculateTotal (selectedRoom : Room.t) (bookingForm : BookingFormData)
    : BookingFormData :=
  let nights := (checkOutDate bookingForm - checkInDate bookingForm)%Z in
  mkBookingFormData (guestName bookingForm) (guestEmail bookingForm)
    (guestPhone bookingForm) (checkInDate bookingForm) (checkOutDate bookingForm)
    (nights * Room.price_per_night selectedRoom)%Z.

(** [handleBookingSubmit]: nothing happens without a selected room and
    hotel; otherwise the form is sent to [createBooking] as it is, with
    [status: 'confirmed']. *)
Definition handleBookingSubmit (net : transport) (now : timestamptz)
    (gen_random_uuid : uuid)
    (selectedRoom : option (uuid * Room.t)) (selectedHotel : option (uuid * Hotel.t))
    (bookingForm : BookingFormData) (d : db)
    : option (result (uuid * Booking.t)) * db :=
  match selectedRoom, selectedHotel with
  | Some room, Some hotel =>
      let r := createBooking net now gen_random_uuid
        (PartialBooking.mk None (Some hotel.1) (Some room.1)
           (Some (guestName bookingForm)) (Some (guestEmail bookingForm))
           (Some (guestPhone bookingForm))
           (Some (checkInDate bookingForm)) (Some (checkOutDate bookingForm))
           None None (Some confirmed) (Some (totalAmount bookingForm))
           None None None None) d in
      (Some r.1, r.2)
  | _, _ => (None, d)
  end.

(** *** Reading the auto-checkout log *)

(** A log row with its embedded [rooms(room_number)] and
    [bookings(guest_name)]. *)
Record AutoCheckoutLogRow := mkAutoCheckoutLogRow {
  log : AutoCheckoutLog.t;
  log_rooms : option string;
  log_bookings : option string
}.

(** [ORDER BY created_at DESC]: [a] may come before [b]. *)
Definition created_at_desc (a b : AutoCheckoutLog.t) : Prop :=
  (AutoCheckoutLog.created_at b ≤ AutoCheckoutLog.created_at a)%Z.

#[global] Instance created_at_desc_dec a b : Decision (created_at_desc a b).
Proof. unfold created_at_desc. apply _. Defined.

Definition embed (d : db) (l : AutoCheckoutLog.t) : AutoCheckoutLogRow :=
  mkAutoCheckoutLogRow l
    (r ← AutoCheckoutLog.room_id l ≫= (rooms d !!.); Some (Room.room_number r))
    (b ← AutoCheckoutLog.booking_id l ≫= (bookings d !!.); Some (Booking.guest_name b)).

(** The rows selected by [.eq('hotel_id', hotelId).order('created_at',
    { ascending: false }).limit(50)], before the embedding. *)
Definition select_auto_checkout_logs (hotelId : uuid) (d : db) : list AutoCheckoutLog.t :=
  take 50
    (merge_sort created_at_desc
       (filter (λ l, AutoCheckoutLog.hotel_id l = Some hotelId) (auto_checkout_logs d))).

(** [autoCheckoutAPI.getAutoCheckoutLogs] *)
Definition getAutoCheckoutLogs (net : transport) (hotelId : uuid) (d : db)
    : result (list AutoCheckoutLogRow) :=
  match net with
  | failed => Err fetch_error
  | delivered => Ok (embed d <$> select_auto_checkout_logs hotelId d)
  end.

(** ** Sequences of operations *)

Inductive op :=
  | OpCreateBooking (net : transport) (now : timestamptz) (gen_random_uuid : uuid)
      (booking : PartialBooking.t)
  | OpCheckIn (first second : transport) (t_in t_upd : timestamptz) (bookingId : uuid)
  | OpCheckOut (first second : transport) (t_out t_upd t_room : timestamptz)
      (bookingId : uuid)
  | OpAutoCheckout (now : timestamptz).

(** The state an operation leaves, whatever it returns. *)
Definition exec (o : op) (d : db) : db :=
  match o with
  | OpCreateBooking net now u booking => (createBooking net now u booking d).2
  | OpCheckIn first second t_in t_upd bookingId =>
      (checkIn first second t_in t_upd bookingId d).2
  | OpCheckOut first second t_out t_upd t_room bookingId =>
      (checkOut first second t_out t_upd t_room bookingId d).2
  | OpAutoCheckout now => auto_checkout_rooms now d
  end.

Definition run (os : list op) (d : db) : db := foldl (λ d o, exec o d) d os.

(** ** Reference points of the state machine and of the invariant *)



(** The number of checked-in bookings that reference room [r]. *)
Definition checked_in_count (r : uuid) (d : db) : nat :=
  length (filter (λ kb : uuid * Booking.t,
                    Booking.room_id kb.2 = Some r ∧ Booking.status kb.2 = checked_in)
            (map_to_list (bookings d))).

(** The invariant as the specification words it: occupied if and only if
    exactly one checked-in booking. *)
Definition occupied_iff_one_checked_in (d : db) : Prop :=
  ∀ r room, rooms d !! r = Some room →
    (Room.status room = occupied ↔ checked_in_count r d = 1).

(** The part of it that the operations maintain: an occupied room has a
    checked-in booking. *)
Definition occupied_has_checked_in (d : db) : Prop :=
  ∀ r room, rooms d !! r = Some room → Room.status room = occupied →
    ∃ i b, bookings d !! i = Some b
           ∧ Booking.room_id b = Some r ∧ Booking.status b = checked_in.

(** An operation whose room-status write, if it has one, reaches the store. *)
Definition room_write_delivered (o : op) : Prop :=
  match o with
  | OpCheckOut _ second _ _ _ _ => second = delivered
  | _ => True
  end.

(** ** A concrete hotel

    The scenario of section 8 of the specification: room R101, booking B1
    checked in with check-out date 2024-01-10 (day 19732), and the
    reference time 2024-01-10T10:00:00. *)
Module Sample.
Definition T : timestamptz := 1704880800%Z.

Definition hotel : Hotel.t :=
  Hotel.mk "Sample Hotel" "owner" (Some "123 Main St, City") None None "10:00:00" 0 0.

Definition R101 (s : room_status) : Room.t :=
  Room.mk "h1" "Room 101" "standard" s 10000 2 None None true 0 0.

Definition B (guest : string) (s : booking_status) (check_out : date) : Booking.t :=
  Booking.mk (Some "h1") (Some "r101") guest None None 19730 check_out
    None None s 20000 pending false 0 0.

Definition B1 : Booking.t := B "Ann" checked_in 19732.

(** R101 occupied by B1. *)
Definition occupied_db : db :=
  mkdb {[ "h1" := hotel ]} {[ "r101" := R101 occupied ]} {[ "b1" := B1 ]} [] [].

(** R101 under maintenance while B1 is still checked in. *)
Definition maintenance_db : db :=
  mkdb {[ "h1" := hotel ]} {[ "r101" := R101 maintenance ]} {[ "b1" := B1 ]} [] [].

(** R101 free, no booking yet. *)
Definition empty_db : db :=
  mkdb {[ "h1" := hotel ]} {[ "r101" := R101 available ]} ∅ [] [].

(** B1 already checked out. *)
Definition checked_out_db : db :=
  mkdb {[ "h1" := hotel ]} {[ "r101" := R101 available ]}
    {[ "b1" := B "Ann" checked_out 19732 ]} [] [].

Definition request (guest : string) (check_in check_out : date) (amount : decimal)
    : PartialBooking.t :=
  PartialBooking.mk None (Some "h1") (Some "r101") (Some guest) None None
    (Some check_in) (Some check_out) None None None (Some amount)
    None None None None.

(** Two guests are booked into R101 and both are checked in. *)
Definition double_check_in : list op :=
  [ OpCreateBooking delivered 10 "b1" (request "Ann" 19730 19732 20000);
    OpCreateBooking delivered 20 "b2" (request "Bob" 19730 19733 30000);
    OpCheckIn delivered delivered 30 30 "b1";
    OpCheckIn delivered delivered 40 40 "b2" ].

(** B1 is reclaimed and then checked in again. *)
Definition reclaim_then_manual : list op :=
  [ OpAutoCheckout T;
    OpCheckIn delivered delivered (T + 60) (T + 60) "b1" ].

Definition log (hotel_id : uuid) (created_at : timestamptz) : AutoCheckoutLog.t :=
  AutoCheckoutLog.mk (Some hotel_id) (Some "r101") (Some "b1") created_at
    "daily_auto_checkout_10am" created_at.

Definition logs_db : db :=
  mkdb {[ "h1" := hotel ]} {[ "r101" := R101 available ]}
    {[ "b1" := B "Ann" checked_out 19732 ]}
    [ log "h1" 100; log "h2" 300; log "h1" 200 ] [].

Definition form (check_in check_out : date) : BookingFormData :=
  mkBookingFormData "Ann" "" "" check_in check_out 0.
End Sample.

(** ** The rest of the client API *)

(** [ORDER BY f DESC] on a timestamp column: [a] may come before [b]. *)
Definition desc_by {A} (f : A → timestamptz) : relation A :=
  λ a b, (f b ≤ f a)%Z.

#[global] Instance desc_by_dec {A} (f : A → timestamptz) a b : Decision (desc_by f a b).
Proof. unfold desc_by. apply _. Defined.

(** [hotelAPI.getHotels] *)
Definition getHotels (net : transport) (d : db) : result (list (uuid * Hotel.t)) :=
  match net with
  | failed => Err fetch_error
  | delivered =>
      Ok (merge_sort (desc_by (λ kh : uuid * Hotel.t, Hotel.created_at kh.2))
            (map_to_list (hotels d)))
  end.

(** [hotelAPI.getHotel] *)
Definition getHotel (net : transport) (id : uuid) (d : db) : result (uuid * Hotel.t) :=
  match net with
  | failed => Err fetch_error
  | delivered => single_by_id id (hotels d)
  end.

(** [SET status = s, updated_at = u] *)
Definition set_room_status_updated (s : room_status) (u : timestamptz) (r : Room.t)
    : Room.t :=
  Room.mk (Room.hotel_id r) (Room.room_number r) (Room.room_type r) s
    (Room.price_per_night r) (Room.max_occupancy r) (Room.amenities r)
    (Room.last_checkout r) (Room.auto_checkout_enabled r) (Room.created_at r) u.

(** [SET auto_checkout_enabled = v] *)
Definition set_auto_checkout_enabled (v : bool) (r : Room.t) : Room.t :=
  Room.mk (Room.hotel_id r) (Room.room_number r) (Room.room_type r) (Room.status r)
    (Room.price_per_night r) (Room.max_occupancy r) (Room.amenities r)
    (Room.last_checkout r) v (Room.created_at r) (Room.updated_at r).

(** [roomAPI.updateRoomStatus] *)
Definition updateRoomStatus (net : transport) (t_upd : timestamptz) (roomId : uuid)
    (status : room_status) (d : db) : result (uuid * Room.t) * db :=
  match net with
  | failed => (Err fetch_error, d)
  | delivered =>
      match single_by_id roomId (rooms d) with
      | Err e => (Err e, d)
      | Ok (id, r) =>
          let data := set_room_status_updated status t_upd r in
          (Ok (id, data), with_rooms (<[id := data]> (rooms d)) d)
      end
  end.

(** The bookings embedded by the inner join [bookings!inner] under the filter
    [bookings.status = 'checked_in']: the checked-in bookings that
    reference the room. *)
Definition checked_in_bookings (roomId : uuid) (d : db) : list (uuid * Booking.t) :=
  filter (λ kb : uuid * Booking.t,
            Booking.room_id kb.2 = Some roomId ∧ Booking.status kb.2 = checked_in)
    (map_to_list (bookings d)).

(** [roomAPI.getRoomWithBooking]: the inner join drops a room without a
    checked-in booking, [.single()] then reports PGRST116, which the
    function swallows and returns the null [data]; any other error is
    thrown. *)
Definition getRoomWithBooking (net : transport) (roomId : uuid) (d : db)
    : result (option (Room.t * list (uuid * Booking.t))) :=
  match net with
  | failed => Err fetch_error
  | delivered =>
      match single_by_id roomId (rooms d) with
      | Err PGRST116 => Ok None
      | Err e => Err e
      | Ok (id, room) =>
          match checked_in_bookings id d with
          | [] => Ok None
          | bs => Ok (Some (room, bs))
          end
      end
  end.

(** A booking with its key and its embedded [rooms(room_number, room_type)]. *)
Record BookingRow := mkBookingRow {
  row_id : uuid;
  row : Booking.t;
  row_rooms : option (string * string)
}.

Definition embed_room (d : db) (kb : uuid * Booking.t) : BookingRow :=
  mkBookingRow kb.1 kb.2
    (r ← Booking.room_id kb.2 ≫= (rooms d !!.);
     Some (Room.room_number r, Room.room_type r)).

(** The rows selected by [.eq('hotel_id', hotelId).order('created_at',
    { ascending: false })], before the embedding. *)
Definition select_bookings (hotelId : uuid) (d : db) : list (uuid * Booking.t) :=
  merge_sort (desc_by (λ kb : uuid * Booking.t, Booking.created_at kb.2))
    (filter (λ kb : uuid * Booking.t, Booking.hotel_id kb.2 = Some hotelId)
       (map_to_list (bookings d))).

(** [bookingAPI.getBookingsByHotel] *)
Definition getBookingsByHotel (net : transport) (hotelId : uuid) (d : db)
    : result (list BookingRow) :=
  match net with
  | failed => Err fetch_error
  | delivered => Ok (embed_room d <$> select_bookings hotelId d)
  end.

(** *** Rooms in the order of their numbers

    [ORDER BY room_number] compares text under the collation of the
    database, which the repository does not fix: it is a parameter. *)
Section collation.
Context (collate : relation string) `{!∀ a b, Decision (collate a b)}.

Definition room_number_asc : relation (uuid * Room.t) :=
  λ a b, collate (Room.room_number a.2) (Room.room_number b.2).

#[global] Instance room_number_asc_dec a b : Decision (room_number_asc a b).
Proof. unfold room_number_asc. apply _. Defined.

(** [roomAPI.getRoomsByHotel] *)
Definition getRoomsByHotel (net : transport) (hotelId : uuid) (d : db)
    : result (list (uuid * Room.t)) :=
  match net with
  | failed => Err fetch_error
  | delivered =>
      Ok (merge_sort room_number_asc
            (filter (λ kr : uuid * Room.t, Room.hotel_id kr.2 = hotelId)
               (map_to_list (rooms d))))
  end.

(** [BookingSystem.loadRooms]: the new value of the [rooms] state, given
    the old one. *)
Definition loadRooms (net : transport) (selectedHotel : option (uuid * Hotel.t))
    (d : db) (rooms : list (uuid * Room.t)) : list (uuid * Room.t) :=
  match selectedHotel with
  | None => rooms
  | Some hotel =>
      match getRoomsByHotel net hotel.1 d with
      | Ok roomsData =>
          filter (λ room : uuid * Room.t, Room.status room.2 = available) roomsData
      | Err _ => rooms
      end
  end.

(** [OwnerDashboard.loadHotelData]: the rooms, bookings and logs it stores,
    if all three requests succeed; otherwise the state is left as it is. *)
Definition loadHotelData (net1 net2 net3 : transport)
    (selectedHotel : option (uuid * Hotel.t)) (d : db)
    : option (list (uuid * Room.t) * list BookingRow * list AutoCheckoutLogRow) :=
  match selectedHotel with
  | None => None
  | Some hotel =>
      match getRoomsByHotel net1 hotel.1 d, getBookingsByHotel net2 hotel.1 d,
            getAutoCheckoutLogs net3 hotel.1 d with
      | Ok roomsData, Ok bookingsData, Ok logsData =>
          Some (roomsData, bookingsData, logsData)
      | _, _, _ => None
      end
  end.
End collation.

(** A collation to run the queries with: "C", which compares byte by
    byte. *)
Definition C_collation : relation string := λ a b, String.leb a b = true.

#[global] Instance C_collation_dec a b : Decision (C_collation a b).
Proof. unfold C_collation. apply _. Defined.

(** ** The screens *)

(** [BookingSystem.loadHotels] and [OwnerDashboard.loadHotels]: the hotel
    selected when none is selected yet. *)
Definition loadHotels (net : transport) (d : db) : option (uuid * Hotel.t) :=
  match getHotels net d with
  | Ok hotelsData => head hotelsData
  | Err _ => None
  end.

(** [BookingSystem.handleRoomSelect]: the room to book, if it is listed. *)
Definition handleRoomSelect (rooms : list (uuid * Room.t)) (roomId : uuid)
    : option (uuid * Room.t) :=
  find (λ r : uuid * Room.t, bool_decide (r.1 = roomId)) rooms.

(** The statistics of [OwnerDashboard.loadHotelData] that count rows.
    ([todayRevenue] is a floating-point sum and is not embedded.) *)
Definition totalRooms (roomsData : list (uuid * Room.t)) : nat := length roomsData.

Definition occupiedRooms (roomsData : list (uuid * Room.t)) : nat :=
  length (filter (λ room : uuid * Room.t, Room.status room.2 = occupied) roomsData).

Definition availableRooms (roomsData : list (uuid * Room.t)) : nat :=
  length (filter (λ room : uuid * Room.t, Room.status room.2 = available) roomsData).

Section today.
(** [new Date(ts).toDateString()]: the calendar day of [ts] in the
    browser's time zone. *)
Context (toDateString : timestamptz → date).

Definition todayCheckouts (today : timestamptz) (logsData : list AutoCheckoutLogRow)
    : nat :=
  length (filter (λ l, toDateString (AutoCheckoutLog.created_at (log l))
                       = toDateString today) logsData).
End today.

(** The booking shown on a room's card in the dashboard:
    [bookings.find(booking => booking.room_id === room.id &&
    booking.status === 'checked_in')]. *)
Definition roomBooking (bookings : list BookingRow) (room : uuid * Room.t)
    : option BookingRow :=
  find (λ booking, bool_decide (Booking.room_id (row booking) = Some room.1)
                   && bool_decide (Booking.status (row booking) = checked_in))
    bookings.

(** What the button of a card does when clicked. *)
Inductive button :=
  | CheckOutButton (bookingId : uuid)
  | BookRoomButton (roomId : uuid).

(** [RoomCard.getActionButton]; [onCheckOut] and [onBook] tell whether the
    handler was passed to the card. *)
Definition getActionButton (room : uuid * Room.t) (booking : option BookingRow)
    (onCheckOut onBook : bool) : option button :=
  match bool_decide (Room.status room.2 = occupied), booking, onCheckOut with
  | true, Some b, true => Some (CheckOutButton (row_id b))
  | _, _, _ =>
      if bool_decide (Room.status room.2 = available) && onBook
      then Some (BookRoomButton room.1)
      else None
  end.

(** The card of a room in the dashboard: [booking={roomBooking}] and
    [onCheckOut={handleCheckOut}]. *)
Definition dashboardCard (bookings : list BookingRow) (room : uuid * Room.t)
    : option button :=
  getActionButton room (roomBooking bookings room) true false.

(** The card of a room in the booking screen: [onBook={handleRoomSelect}]. *)
Definition bookingCard (room : uuid * Room.t) : option button :=
  getActionButton room None false true.

(** * Properties *)

(** ** What [auto_checkout_rooms] leaves in each table *)

Section auto_checkout_rooms_tables.
Context (now : timestamptz) (d : db).

Lemma bookings_auto_checkout_rooms :
  bookings (auto_checkout_rooms now d) = update_bookings now (bookings d).
Proof. reflexivity. Qed.

Lemma rooms_auto_checkout_rooms :
  rooms (auto_checkout_rooms now d)
  = update_rooms now (update_bookings now (bookings d)) (rooms d).
Proof. reflexivity. Qed.

Lemma auto_checkout_logs_auto_checkout_rooms :
  auto_checkout_logs (auto_checkout_rooms now d)
  = auto_checkout_logs d
    ++ auto_checkout_log_rows now (update_bookings now (bookings d)).
Proof. reflexivity. Qed.

Lemma hotels_auto_checkout_rooms : hotels (auto_checkout_rooms now d) = hotels d.
Proof. reflexivity. Qed.
End auto_checkout_rooms_tables.

Lemma expired_where_true now b :
  expired_where now b = true
  ↔ Booking.status b = checked_in ∧ (Booking.check_out_date b ≤ DATE now)%Z.
Proof.
  unfold expired_where, CURRENT_DATE.
  rewrite andb_true_iff, bool_decide_eq_true, Z.leb_le. reflexivity.
Qed.

Lemma auto_checked_out_today_where_true now b :
  auto_checked_out_today_where now b = true
  ↔ Booking.status b = checked_out ∧ Booking.auto_checkout b = true
    ∧ ∃ t, Booking.actual_check_out b = Some t ∧ DATE t = DATE now.
Proof.
  unfold auto_checked_out_today_where, CURRENT_DATE.
  rewrite !andb_true_iff, bool_decide_eq_true.
  destruct (Booking.actual_check_out b) as [t|].
  - rewrite Z.eqb_eq. split.
    + intros [[Hs Ha] Ht]. eauto.
    + intros (Hs & Ha & t' & [= <-] & Ht). done.
  - split.
    + intros [_ [=]].
    + intros (_ & _ & t & [=] & _).
Qed.

Lemma auto_checked_out_today_set now b :
  auto_checked_out_today_where now (Booking.set_auto_checked_out now b) = true.
Proof. apply auto_checked_out_today_where_true. simpl. eauto. Qed.

Lemma expired_where_set now now' b :
  expired_where now' (Booking.set_auto_checked_out now b) = false.
Proof. reflexivity. Qed.

Lemma lookup_update_bookings now bs i :
  update_bookings now bs !! i
  = (λ b, if expired_where now b then Booking.set_auto_checked_out now b else b)
    <$> bs !! i.
Proof. apply lookup_fmap. Qed.

Lemma elem_of_auto_checked_out_room_ids now bs r :
  r ∈ auto_checked_out_room_ids now bs
  ↔ ∃ i b, bs !! i = Some b ∧ auto_checked_out_today_where now b = true
           ∧ Booking.room_id b = Some r.
Proof.
  unfold auto_checked_out_room_ids.
  rewrite elem_of_list_to_set, list_elem_of_omap. split.
  - intros [[i b] [Hin Hsel]]. apply elem_of_map_to_list in Hin. simpl in Hsel.
    exists i, b. destruct (auto_checked_out_today_where now b); [done | discriminate].
  - intros (i & b & Hb & Hsel & Hr). exists (i, b). split.
    + by apply elem_of_map_to_list.
    + simpl. by rewrite Hsel.
Qed.

Lemma lookup_update_rooms now bs rs r :
  update_rooms now bs rs !! r
  = (λ room, if bool_decide (r ∈ auto_checked_out_room_ids now bs)
             then Room.set_status_last_checkout_updated available now now room
             else room) <$> rs !! r.
Proof.
  unfold update_rooms. rewrite map_lookup_imap. by destruct (rs !! r).
Qed.

(** After statement 1 the bookings selected by statements 2 and 3 are the
    ones just expired and the ones auto-checked-out earlier the same day. *)
Lemma auto_checked_out_after_update now bs r :
  r ∈ auto_checked_out_room_ids now (update_bookings now bs)
  ↔ ∃ i b, bs !! i = Some b ∧ Booking.room_id b = Some r
           ∧ (expired_where now b = true ∨ auto_checked_out_today_where now b = true).
Proof.
  rewrite elem_of_auto_checked_out_room_ids. split.
  - intros (i & b' & Hb' & Hsel & Hr).
    rewrite lookup_update_bookings in Hb'.
    destruct (bs !! i) as [b|] eqn:Hb; simplify_eq/=.
    exists i, b. destruct (expired_where now b) eqn:He; auto.
  - intros (i & b & Hb & Hr & Hsel).
    exists i, (if expired_where now b then Booking.set_auto_checked_out now b else b).
    rewrite lookup_update_bookings, Hb. split; [done|].
    destruct (expired_where now b) eqn:He.
    + split; [apply auto_checked_out_today_set | done].
    + destruct Hsel as [[=] | Hsel]; done.
Qed.

(** ** C1: running the reclamation twice *)

Lemma update_bookings_twice now now' bs :
  (DATE now' ≤ DATE now)%Z →
  update_bookings now' (update_bookings now bs) = update_bookings now bs.
Proof.
  intros Hle. apply map_eq; intros i.
  rewrite !lookup_update_bookings.
  destruct (bs !! i) as [b|]; simpl; [|done]. f_equal.
  destruct (expired_where now b) eqn:He; [done|].
  destruct (expired_where now' b) eqn:He'; [|done].
  apply expired_where_true in He' as [Hs Hd].
  assert (expired_where now b = true) as Hn; [|congruence].
  apply expired_where_true. split; [done | lia].
Qed.

(** C1, as amended: a second run of [auto_checkout_rooms] whose reference
    time does not fall on a later calendar day than the first one's
    transitions no booking: it leaves the bookings table as the first run
    left it. *)
Theorem auto_checkout_rooms_twice_bookings (d : db) (now now' : timestamptz) :
  (DATE now' ≤ DATE now)%Z →
  bookings (auto_checkout_rooms now' (auto_checkout_rooms now d))
  = bookings (auto_checkout_rooms now d).
Proof.
  intros Hle. rewrite !bookings_auto_checkout_rooms.
  by apply update_bookings_twice.
Qed.

Lemma auto_checkout_rooms_twice_bookings_witness :
  (DATE (Sample.T + 5) ≤ DATE Sample.T)%Z
  ∧ bookings (auto_checkout_rooms (Sample.T + 5)
                (auto_checkout_rooms Sample.T Sample.occupied_db))
    = bookings (auto_checkout_rooms Sample.T Sample.occupied_db).
Proof.
  assert (DATE (Sample.T + 5) ≤ DATE Sample.T)%Z as Hle
    by (vm_compute; discriminate).
  split; [exact Hle|].
  exact (auto_checkout_rooms_twice_bookings Sample.occupied_db Sample.T
           (Sample.T + 5) Hle).
Defined.

(** C1, as stated, fails: on the sample hotel a second run at the same
    reference time appends one more row to each audit table. *)
Lemma auto_checkout_rooms_twice_not_noop :
  let d1 := auto_checkout_rooms Sample.T Sample.occupied_db in
  let d2 := auto_checkout_rooms Sample.T d1 in
  length (auto_checkout_logs d1) = 1
  ∧ length (auto_checkout_logs d2) = 2
  ∧ length (room_status_history d1) = 1
  ∧ length (room_status_history d2) = 2
  ∧ d2 ≠ d1.
Proof.
  repeat split; try (vm_compute; reflexivity).
  intros Heq. apply (f_equal (λ d, length (auto_checkout_logs d))) in Heq.
  vm_compute in Heq. discriminate.
Qed.

(** What the second run does append: statement 3 selects by date, so it
    logs again every booking that is auto-checked-out on that day. *)
Lemma auto_checkout_rooms_twice_logs (d : db) (now : timestamptz) :
  auto_checkout_logs (auto_checkout_rooms now (auto_checkout_rooms now d))
  = auto_checkout_logs (auto_checkout_rooms now d)
    ++ auto_checkout_log_rows now (bookings (auto_checkout_rooms now d)).
Proof.
  rewrite (auto_checkout_logs_auto_checkout_rooms now (auto_checkout_rooms now d)).
  rewrite !bookings_auto_checkout_rooms.
  by rewrite update_bookings_twice.
Qed.

(** The scenario of section 8 of the specification. *)
Example auto_checkout_rooms_scenario :
  let d := auto_checkout_rooms Sample.T Sample.occupied_db in
  (Booking.status <$> bookings d !! "b1" = Some checked_out
   ∧ Booking.actual_check_out <$> bookings d !! "b1" = Some (Some Sample.T))
  ∧ (Room.status <$> rooms d !! "r101" = Some available
     ∧ Room.last_checkout <$> rooms d !! "r101" = Some (Some Sample.T))
  ∧ auto_checkout_logs d
    = [ AutoCheckoutLog.mk (Some "h1") (Some "r101") (Some "b1") Sample.T
          "daily_auto_checkout_10am" Sample.T ].
Proof. repeat split; vm_compute; reflexivity. Qed.

(** ** C2: which bookings the reclamation selects *)

(** C2: a booking is checked out by [auto_checkout_rooms] exactly when it
    is checked in and its check-out date is not after the reference date:
    such a booking comes out with status checked_out, [actual_check_out]
    the reference time and [auto_checkout] set, its other columns kept,
    and any other booking is left as it is.  In particular a checked-in
    booking whose check-out date is the reference date is reclaimed and
    one whose check-out date is the day after is not. *)
Theorem auto_checkout_rooms_selects (d : db) (now : timestamptz) (i : uuid)
    (b : Booking.t) :
  bookings d !! i = Some b →
  let after := bookings (auto_checkout_rooms now d) !! i in
  let selected :=
    Booking.status b = checked_in ∧ (Booking.check_out_date b ≤ DATE now)%Z in
  let reclaimed :=
    ∃ b', after = Some b'
      ∧ Booking.status b' = checked_out
      ∧ Booking.actual_check_out b' = Some now
      ∧ Booking.auto_checkout b' = true
      ∧ Booking.updated_at b' = now
      ∧ Booking.hotel_id b' = Booking.hotel_id b
      ∧ Booking.room_id b' = Booking.room_id b
      ∧ Booking.guest_name b' = Booking.guest_name b
      ∧ Booking.guest_email b' = Booking.guest_email b
      ∧ Booking.guest_phone b' = Booking.guest_phone b
      ∧ Booking.check_in_date b' = Booking.check_in_date b
      ∧ Booking.check_out_date b' = Booking.check_out_date b
      ∧ Booking.actual_check_in b' = Booking.actual_check_in b
      ∧ Booking.total_amount b' = Booking.total_amount b
      ∧ Booking.payment_status b' = Booking.payment_status b
      ∧ Booking.created_at b' = Booking.created_at b in
  (selected → reclaimed)
  ∧ (¬ selected → after = Some b)
  ∧ (after ≠ Some b ↔ selected)
  ∧ (Booking.status b = checked_in → Booking.check_out_date b = DATE now →
       reclaimed)
  ∧ (Booking.check_out_date b = (DATE now + 1)%Z → after = Some b).
Proof.
  intros Hb after selected reclaimed.
  assert (after = Some (if expired_where now b
                        then Booking.set_auto_checked_out now b else b)) as Hafter.
  { unfold after. by rewrite bookings_auto_checkout_rooms, lookup_update_bookings, Hb. }
  assert (selected → reclaimed) as Hsel.
  { intros Hs. apply expired_where_true in Hs. rewrite Hs in Hafter.
    exists (Booking.set_auto_checked_out now b). by split_and!. }
  assert (¬ selected → after = Some b) as Hnot.
  { intros Hn. rewrite Hafter.
    destruct (expired_where now b) eqn:He; [|done].
    by apply expired_where_true in He. }
  split_and!; try done.
  - split.
    + intros Hchanged. destruct (decide (Booking.status b = checked_in)) as [Hs|Hs];
        [destruct (decide (Booking.check_out_date b ≤ DATE now)%Z) as [Hd|Hd]|].
      * done.
      * destruct Hchanged. apply Hnot. by intros [_ ?].
      * destruct Hchanged. apply Hnot. by intros [? _].
    + intros Hs Hsame. destruct (Hsel Hs) as (b' & Hb' & Hout & _).
      destruct Hs as [Hs _]. congruence.
  - intros Hs Hd. apply Hsel. split; [done | lia].
  - intros Hd. apply Hnot. intros [_ Hle]. lia.
Qed.

Lemma auto_checkout_rooms_selects_witness :
  bookings Sample.occupied_db !! "b1" = Some Sample.B1
  ∧ ∃ b', bookings (auto_checkout_rooms Sample.T Sample.occupied_db) !! "b1" = Some b'
      ∧ Booking.status b' = checked_out
      ∧ Booking.actual_check_out b' = Some Sample.T
      ∧ Booking.auto_checkout b' = true.
Proof.
  assert (bookings Sample.occupied_db !! "b1" = Some Sample.B1) as Hb
    by reflexivity.
  split; [exact Hb|].
  destruct (proj1 (auto_checkout_rooms_selects Sample.occupied_db Sample.T "b1"
                     Sample.B1 Hb)) as (b' & Hb' & Hs & Hout & Hauto & _).
  - split; [reflexivity | vm_compute; discriminate].
  - exists b'. split; [exact Hb'|]. split; [exact Hs|]. split; [exact Hout | exact Hauto].
Defined.

(** ** C7: what the reclamation does to rooms *)

(** C7, as amended: [auto_checkout_rooms] sets to available, with
    [last_checkout] the reference time, every room referenced by a booking
    that it has just checked out or that was auto-checked-out earlier the
    same day, whatever the room's status was; every other room is left
    unchanged. *)
Theorem auto_checkout_rooms_room (d : db) (now : timestamptz) (r : uuid)
    (room : Room.t) :
  rooms d !! r = Some room →
  let reclaimed := ∃ i b, bookings d !! i = Some b ∧ Booking.room_id b = Some r
      ∧ (expired_where now b = true ∨ auto_checked_out_today_where now b = true) in
  (reclaimed →
     rooms (auto_checkout_rooms now d) !! r
     = Some (Room.set_status_last_checkout_updated available now now room))
  ∧ (¬ reclaimed → rooms (auto_checkout_rooms now d) !! r = Some room).
Proof.
  intros Hroom reclaimed.
  rewrite rooms_auto_checkout_rooms, lookup_update_rooms, Hroom. simpl.
  pose proof (auto_checked_out_after_update now (bookings d) r) as Hiff.
  fold reclaimed in Hiff.
  split; intros H; [rewrite bool_decide_eq_true_2 | rewrite bool_decide_eq_false_2];
    try done; by rewrite Hiff.
Qed.

Lemma auto_checkout_rooms_room_witness :
  rooms Sample.maintenance_db !! "r101" = Some (Sample.R101 maintenance)
  ∧ rooms (auto_checkout_rooms Sample.T Sample.maintenance_db) !! "r101"
    = Some (Room.set_status_last_checkout_updated available Sample.T Sample.T
              (Sample.R101 maintenance)).
Proof.
  assert (rooms Sample.maintenance_db !! "r101" = Some (Sample.R101 maintenance))
    as Hroom by reflexivity.
  split; [exact Hroom|].
  apply (auto_checkout_rooms_room Sample.maintenance_db Sample.T "r101"
           (Sample.R101 maintenance) Hroom).
  exists "b1", Sample.B1. repeat split. left. reflexivity.
Defined.

(** C7, as stated, fails: R101 is under maintenance when its expired
    booking is reclaimed, and the reclamation makes it available. *)
Lemma auto_checkout_rooms_clobbers_maintenance :
  rooms Sample.maintenance_db !! "r101" = Some (Sample.R101 maintenance)
  ∧ bookings Sample.maintenance_db !! "b1" = Some Sample.B1
  ∧ expired_where Sample.T Sample.B1 = true
  ∧ Room.status <$> rooms (auto_checkout_rooms Sample.T Sample.maintenance_db) !! "r101"
    = Some available
  ∧ Room.last_checkout <$> rooms (auto_checkout_rooms Sample.T Sample.maintenance_db) !! "r101"
    = Some (Some Sample.T)
  ∧ rooms (auto_checkout_rooms Sample.T Sample.maintenance_db) !! "r101"
    ≠ rooms Sample.maintenance_db !! "r101".
Proof.
  repeat split; try (vm_compute; reflexivity).
  vm_compute. discriminate.
Qed.

(** ** The front desk: [checkIn] and [checkOut] *)

Lemma lookup_update_room f (room_id : option uuid) (rs : gmap uuid Room.t) r :
  update_room f room_id rs !! r
  = if decide (room_id = Some r) then f <$> rs !! r else rs !! r.
Proof.
  unfold update_room. destruct room_id as [r'|].
  - case_decide as Hr.
    + injection Hr as ->. apply lookup_alter_eq.
    + apply lookup_alter_ne. congruence.
  - by case_decide.
Qed.

(** The row an id denotes. *)
Lemma single_by_id_hit {V} (t : gmap uuid V) i v :
  t !! i = Some v → single_by_id i t = Ok (i, v).
Proof. unfold single_by_id. by intros ->. Qed.

Lemma single_by_id_Ok {V} (t : gmap uuid V) id k v :
  single_by_id id t = Ok (k, v) → t !! k = Some v.
Proof.
  unfold single_by_id. destruct (t !! id) as [w|] eqn:Hid.
  - by intros [= <- <-].
  - destruct (uuid_in id) as [u|]; [|discriminate].
    destruct (t !! u) as [w|] eqn:Hu; [|discriminate]. by intros [= <- <-].
Qed.

Lemma single_by_id_Err {V} (t : gmap uuid V) id e :
  single_by_id id t = Err e
  ↔ t !! id = None
    ∧ (uuid_in id = None ∧ e = invalid_text_representation
       ∨ ∃ u, uuid_in id = Some u ∧ t !! u = None ∧ e = PGRST116).
Proof.
  unfold single_by_id. destruct (t !! id) as [w|].
  - split; [discriminate | by intros [[=] _]].
  - destruct (uuid_in id) as [u|].
    + destruct (t !! u) as [w|] eqn:Hu.
      * split; [discriminate|]. intros [_ [[[=] _] | (u' & [= <-] & Hu' & _)]].
        congruence.
      * split; [intros [= <-]; eauto 10|].
        by intros [_ [[[=] _] | (u' & _ & _ & ->)]].
    + split; [intros [= <-]; auto|].
      by intros [_ [[_ ->] | (u' & [=] & _)]].
Qed.

Section front_desk.
Context (d : db) (i : uuid) (b : Booking.t).
Hypothesis Hb : bookings d !! i = Some b.

Lemma checkIn_delivered second t_in t_upd :
  let data := Booking.set_checked_in t_in t_upd b in
  checkIn delivered second t_in t_upd i d
  = (Ok data,
     match second with
     | delivered =>
         mkdb (hotels d)
           (update_room (Room.set_status occupied) (Booking.room_id b) (rooms d))
           (<[i := data]> (bookings d))
           (auto_checkout_logs d) (room_status_history d)
     | failed => with_bookings (<[i := data]> (bookings d)) d
     end).
Proof. unfold checkIn. rewrite (single_by_id_hit _ _ _ Hb). by destruct second. Qed.

Lemma checkOut_delivered second t_out t_upd t_room :
  let data := Booking.set_checked_out t_out t_upd b in
  checkOut delivered second t_out t_upd t_room i d
  = (Ok data,
     match second with
     | delivered =>
         mkdb (hotels d)
           (update_room (Room.set_status_last_checkout available t_room)
              (Booking.room_id b) (rooms d))
           (<[i := data]> (bookings d))
           (auto_checkout_logs d) (room_status_history d)
     | failed => with_bookings (<[i := data]> (bookings d)) d
     end).
Proof. unfold checkOut. rewrite (single_by_id_hit _ _ _ Hb). by destruct second. Qed.
End front_desk.

(** A call either returns an error and leaves the store as it is, or
    acts as the delivered call on the key that the id denotes. *)
Lemma checkIn_cases first second t_in t_upd j d :
  (∃ e, checkIn first second t_in t_upd j d = (Err e, d)
        ∧ (first = failed ∧ e = fetch_error
           ∨ first = delivered ∧ single_by_id j (bookings d) = Err e))
  ∨ (∃ k b, first = delivered ∧ bookings d !! k = Some b
            ∧ checkIn first second t_in t_upd j d
              = checkIn delivered second t_in t_upd k d).
Proof.
  unfold checkIn at 1 2. destruct first; [|left; eauto].
  destruct (single_by_id j (bookings d)) as [[k b]|e] eqn:Hj; [|left; eauto].
  right. exists k, b. apply single_by_id_Ok in Hj as Hk.
  split; [done|]. split; [done|].
  unfold checkIn. by rewrite (single_by_id_hit _ _ _ Hk).
Qed.

Lemma checkOut_cases first second t_out t_upd t_room j d :
  (∃ e, checkOut first second t_out t_upd t_room j d = (Err e, d)
        ∧ (first = failed ∧ e = fetch_error
           ∨ first = delivered ∧ single_by_id j (bookings d) = Err e))
  ∨ (∃ k b, first = delivered ∧ bookings d !! k = Some b
            ∧ checkOut first second t_out t_upd t_room j d
              = checkOut delivered second t_out t_upd t_room k d).
Proof.
  unfold checkOut at 1 2. destruct first; [|left; eauto].
  destruct (single_by_id j (bookings d)) as [[k b]|e] eqn:Hj; [|left; eauto].
  right. exists k, b. apply single_by_id_Ok in Hj as Hk.
  split; [done|]. split; [done|].
  unfold checkOut. by rewrite (single_by_id_hit _ _ _ Hk).
Qed.

(** The errors of a delivered call: 22P02 for an id that is not the text
    of a uuid, PGRST116 for a uuid that is the key of no booking; the
    store is left as it is. *)
Lemma checkIn_error second t_in t_upd i d e d' :
  checkIn delivered second t_in t_upd i d = (Err e, d') →
  d' = d ∧ bookings d !! i = None
  ∧ (uuid_in i = None ∧ e = invalid_text_representation
     ∨ ∃ u, uuid_in i = Some u ∧ bookings d !! u = None ∧ e = PGRST116).
Proof.
  unfold checkIn.
  destruct (single_by_id i (bookings d)) as [[k b]|e'] eqn:Hi; [discriminate|].
  intros [= <- <-]. by apply single_by_id_Err in Hi as [? ?].
Qed.


Lemma checkIn_unknown second t_in t_upd i d :
  bookings d !! i = None →
  (uuid_in i = None →
     checkIn delivered second t_in t_upd i d = (Err invalid_text_representation, d))
  ∧ (∀ u, uuid_in i = Some u → bookings d !! u = None →
       checkIn delivered second t_in t_upd i d = (Err PGRST116, d)).
Proof.
  intros Hi. unfold checkIn, single_by_id. rewrite Hi. split.
  - by intros ->.
  - by intros u -> ->.
Qed.

Lemma checkOut_unknown second t_out t_upd t_room i d :
  bookings d !! i = None →
  (uuid_in i = None →
     checkOut delivered second t_out t_upd t_room i d
     = (Err invalid_text_representation, d))
  ∧ (∀ u, uuid_in i = Some u → bookings d !! u = None →
       checkOut delivered second t_out t_upd t_room i d = (Err PGRST116, d)).
Proof.
  intros Hi. unfold checkOut, single_by_id. rewrite Hi. split.
  - by intros ->.
  - by intros u -> ->.
Qed.

(** C5, as amended: for every booking [b] that exists, [checkIn] succeeds
    whatever the status of [b] and of the room: it sets [status] to
    checked_in and [actual_check_in] to the clock reading, touches no other
    booking, sets the referenced room to occupied and touches no other
    room.  A delivered call fails only for an id that denotes no booking:
    with Postgres's 22P02 when the id is not the text of a uuid, with the
    store's no-row error when it is a uuid that is the key of no booking;
    either way it changes nothing. *)
Theorem checkIn_effect (d : db) (i : uuid) (t_in t_upd : timestamptz) :
  (∀ b, bookings d !! i = Some b →
     ∃ data d',
       checkIn delivered delivered t_in t_upd i d = (Ok data, d')
       ∧ data = Booking.set_checked_in t_in t_upd b
       ∧ Booking.status data = checked_in
       ∧ Booking.actual_check_in data = Some t_in
       ∧ bookings d' !! i = Some data
       ∧ (∀ j, j ≠ i → bookings d' !! j = bookings d !! j)
       ∧ (∀ r, Booking.room_id b = Some r →
            rooms d' !! r = Room.set_status occupied <$> rooms d !! r)
       ∧ (∀ r, Booking.room_id b ≠ Some r → rooms d' !! r = rooms d !! r))
  ∧ (∀ e d', checkIn delivered delivered t_in t_upd i d = (Err e, d') →
       d' = d ∧ bookings d !! i = None
       ∧ (uuid_in i = None ∧ e = invalid_text_representation
          ∨ ∃ u, uuid_in i = Some u ∧ bookings d !! u = None ∧ e = PGRST116))
  ∧ (bookings d !! i = None → uuid_in i = None →
       checkIn delivered delivered t_in t_upd i d
       = (Err invalid_text_representation, d))
  ∧ (∀ u, bookings d !! i = None → uuid_in i = Some u → bookings d !! u = None →
       checkIn delivered delivered t_in t_upd i d = (Err PGRST116, d)).
Proof.
  split_and!.
  - intros b Hb. eexists _, _. split; [by apply checkIn_delivered|].
    simpl. split_and!; try done.
    + apply lookup_insert_eq.
    + intros j Hj. by apply lookup_insert_ne.
    + intros r Hr. rewrite lookup_update_room. by case_decide.
    + intros r Hr. rewrite lookup_update_room. by case_decide.
  - intros e d'. apply checkIn_error.
  - intros Hnone. by apply checkIn_unknown.
  - intros u Hnone. by apply checkIn_unknown.
Qed.

(** The two failures of [checkIn] on the sample hotel. *)
Example checkIn_unknown_ids :
  checkIn delivered delivered 7 8 "not-a-uuid" Sample.occupied_db
  = (Err invalid_text_representation, Sample.occupied_db)
  ∧ checkIn delivered delivered 7 8 "a0eebc99-9c0b-4ef8-bb6d-6bb9bd380a11"
      Sample.occupied_db
    = (Err PGRST116, Sample.occupied_db).
Proof. split; reflexivity. Qed.

Lemma checkIn_effect_witness :
  bookings Sample.checked_out_db !! "b1" = Some (Sample.B "Ann" checked_out 19732)
  ∧ ∃ data d',
      checkIn delivered delivered 7 8 "b1" Sample.checked_out_db = (Ok data, d')
      ∧ Booking.status data = checked_in
      ∧ Room.status <$> rooms d' !! "r101" = Some occupied.
Proof.
  assert (bookings Sample.checked_out_db !! "b1"
          = Some (Sample.B "Ann" checked_out 19732)) as Hb by reflexivity.
  split; [exact Hb|].
  destruct (proj1 (checkIn_effect Sample.checked_out_db "b1" 7 8) _ Hb)
    as (data & d' & Hrun & _ & Hs & _ & _ & _ & Hroom & _).
  exists data, d'. split; [exact Hrun|]. split; [exact Hs|].
  rewrite (Hroom "r101" eq_refl). reflexivity.
Defined.

(** C5, as stated, fails: a booking that is already checked out is checked
    in again without any error, and a second guest is checked into a room
    that already has a checked-in booking. *)
Lemma checkIn_not_guarded :
  let late := checkIn delivered delivered 7 8 "b1" Sample.checked_out_db in
  let d := run (take 3 Sample.double_check_in) Sample.empty_db in
  let second := checkIn delivered delivered 40 40 "b2" d in
  (Booking.status <$> bookings Sample.checked_out_db !! "b1" = Some checked_out
   ∧ late.1 = Ok (Booking.set_checked_in 7 8 (Sample.B "Ann" checked_out 19732))
   ∧ Booking.status <$> bookings late.2 !! "b1" = Some checked_in)
  ∧ (checked_in_count "r101" d = 1
     ∧ Booking.status <$> bookings d !! "b2" = Some confirmed
     ∧ (∃ data, second.1 = Ok data)
     ∧ checked_in_count "r101" second.2 = 2).
Proof.
  repeat split; try (vm_compute; reflexivity).
  eexists. vm_compute. reflexivity.
Qed.

(** C6, as amended: for every booking [b] with status checked_in, manual
    [checkOut] sets [status] to checked_out and [actual_check_out] to the
    clock reading and leaves [auto_checkout] as it was (the update does not
    write that column); it sets the referenced room to available with
    [last_checkout] the clock reading, and touches no other booking or
    room. *)
Theorem checkOut_effect (d : db) (i : uuid) (b : Booking.t)
    (t_out t_upd t_room : timestamptz) :
  bookings d !! i = Some b →
  Booking.status b = checked_in →
  ∃ data d',
    checkOut delivered delivered t_out t_upd t_room i d = (Ok data, d')
    ∧ Booking.status data = checked_out
    ∧ Booking.actual_check_out data = Some t_out
    ∧ Booking.auto_checkout data = Booking.auto_checkout b
    ∧ bookings d' !! i = Some data
    ∧ (∀ j, j ≠ i → bookings d' !! j = bookings d !! j)
    ∧ (∀ r, Booking.room_id b = Some r →
         rooms d' !! r
         = Room.set_status_last_checkout available t_room <$> rooms d !! r)
    ∧ (∀ r, Booking.room_id b ≠ Some r → rooms d' !! r = rooms d !! r).
Proof.
  intros Hb _. eexists _, _. split; [by apply checkOut_delivered|].
  simpl. split_and!; try done.
  - apply lookup_insert_eq.
  - intros j Hj. by apply lookup_insert_ne.
  - intros r Hr. rewrite lookup_update_room. by case_decide.
  - intros r Hr. rewrite lookup_update_room. by case_decide.
Qed.

Lemma checkOut_effect_witness :
  bookings Sample.occupied_db !! "b1" = Some Sample.B1
  ∧ Booking.status Sample.B1 = checked_in
  ∧ ∃ data d',
      checkOut delivered delivered 7 8 9 "b1" Sample.occupied_db = (Ok data, d')
      ∧ Booking.status data = checked_out
      ∧ Room.status <$> rooms d' !! "r101" = Some available
      ∧ Room.last_checkout <$> rooms d' !! "r101" = Some (Some 9%Z).
Proof.
  assert (bookings Sample.occupied_db !! "b1" = Some Sample.B1) as Hb
    by reflexivity.
  assert (Booking.status Sample.B1 = checked_in) as Hs by reflexivity.
  split; [exact Hb|]. split; [exact Hs|].
  destruct (checkOut_effect Sample.occupied_db "b1" Sample.B1 7 8 9 Hb Hs)
    as (data & d' & Hrun & Hout & _ & _ & _ & _ & Hroom & _).
  exists data, d'. split; [exact Hrun|]. split; [exact Hout|].
  rewrite (Hroom "r101" eq_refl). split; reflexivity.
Defined.

(** C6, as stated, fails: B1 is reclaimed, checked in again and then
    checked out by hand; it is checked in when [checkOut] is called, and
    its [auto_checkout] flag is still true afterwards. *)
Lemma checkOut_keeps_auto_checkout :
  let d := run Sample.reclaim_then_manual Sample.occupied_db in
  let out := checkOut delivered delivered (Sample.T + 120) (Sample.T + 120)
               (Sample.T + 120) "b1" d in
  Booking.status <$> bookings d !! "b1" = Some checked_in
  ∧ (∃ data, out.1 = Ok data ∧ Booking.status data = checked_out
             ∧ Booking.auto_checkout data = true)
  ∧ Booking.auto_checkout <$> bookings out.2 !! "b1" = Some true.
Proof.
  repeat split; try (vm_compute; reflexivity).
  eexists. vm_compute. repeat split.
Qed.

(** C10: when the room-status update of [checkIn] or [checkOut] fails, the
    call still returns the updated booking and no error; the booking has
    made its transition in the store and the rooms table is unchanged. *)
Theorem room_write_failure_ignored (d : db) (i : uuid) (b : Booking.t)
    (t_in t_out t_upd t_room : timestamptz) :
  bookings d !! i = Some b →
  (∃ d', checkIn delivered failed t_in t_upd i d
         = (Ok (Booking.set_checked_in t_in t_upd b), d')
         ∧ bookings d' !! i = Some (Booking.set_checked_in t_in t_upd b)
         ∧ Booking.status (Booking.set_checked_in t_in t_upd b) = checked_in
         ∧ rooms d' = rooms d)
  ∧ (∃ d', checkOut delivered failed t_out t_upd t_room i d
           = (Ok (Booking.set_checked_out t_out t_upd b), d')
           ∧ bookings d' !! i = Some (Booking.set_checked_out t_out t_upd b)
           ∧ Booking.status (Booking.set_checked_out t_out t_upd b) = checked_out
           ∧ rooms d' = rooms d).
Proof.
  intros Hb. split; eexists.
  - split; [by apply checkIn_delivered|]. simpl.
    split_and!; try done. apply lookup_insert_eq.
  - split; [by apply checkOut_delivered|]. simpl.
    split_and!; try done. apply lookup_insert_eq.
Qed.

Lemma room_write_failure_ignored_witness :
  bookings Sample.occupied_db !! "b1" = Some Sample.B1
  ∧ ∃ d', checkOut delivered failed 7 8 9 "b1" Sample.occupied_db
          = (Ok (Booking.set_checked_out 7 8 Sample.B1), d')
          ∧ rooms d' = rooms Sample.occupied_db.
Proof.
  assert (bookings Sample.occupied_db !! "b1" = Some Sample.B1) as Hb
    by reflexivity.
  split; [exact Hb|].
  destruct (proj2 (room_write_failure_ignored Sample.occupied_db "b1" Sample.B1
                     0 7 8 9 Hb)) as (d' & Hrun & _ & _ & Hrooms).
  exists d'. split; [exact Hrun | exact Hrooms].
Defined.

(** ** Creating bookings *)

Lemma bookings_row_Ok now p row :
  bookings_row now p = Ok row →
  PartialBooking.guest_name p = Some (Booking.guest_name row)
  ∧ PartialBooking.check_in_date p = Some (Booking.check_in_date row)
  ∧ PartialBooking.check_out_date p = Some (Booking.check_out_date row)
  ∧ Booking.total_amount row = default 0%Z (PartialBooking.total_amount p)
  ∧ Booking.status row = default confirmed (PartialBooking.status p)
  ∧ Booking.hotel_id row = PartialBooking.hotel_id p
  ∧ Booking.room_id row = PartialBooking.room_id p.
Proof.
  unfold bookings_row.
  destruct (Z.abs _ <? _)%Z; [|discriminate]. simpl.
  destruct (PartialBooking.guest_name p); [|discriminate].
  destruct (PartialBooking.check_in_date p); [|discriminate].
  destruct (PartialBooking.check_out_date p); [|discriminate]. simpl.
  intros [= <-]. done.
Qed.

Lemma insert_bookings_Ok now u p d data :
  insert_bookings now u p d = Ok data →
  bookings_row now p = Ok data.2
  ∧ data.1 = default u (PartialBooking.id p)
  ∧ bookings d !! data.1 = None.
Proof.
  unfold insert_bookings.
  destruct (bookings_row now p) as [row|]; [|discriminate]. simpl.
  destruct (bool_decide _) eqn:Hfresh; [|discriminate]. simpl.
  destruct (references (Booking.hotel_id row) _); [|discriminate]. simpl.
  destruct (references (Booking.room_id row) _); [|discriminate]. simpl.
  intros [= <-]. by apply bool_decide_eq_true in Hfresh.
Qed.

(** The state after [createBooking]: either nothing changed, or one row
    was added under a key that was free. *)
Lemma createBooking_state net now u p d :
  (createBooking net now u p d).2 = d
  ∨ ∃ id row, (createBooking net now u p d).1 = Ok (id, row)
              ∧ bookings d !! id = None
              ∧ (createBooking net now u p d).2
                = with_bookings (<[id := row]> (bookings d)) d.
Proof.
  unfold createBooking. destruct net; [|by left].
  destruct (insert_bookings now u p d) as [[id row]|] eqn:Hins; [|by left].
  right. exists id, row. apply insert_bookings_Ok in Hins as (_ & _ & Hfresh).
  done.
Qed.

(** C8, as amended: [createBooking] validates neither the order of the
    dates nor the amount.  It creates the booking whenever the guest name
    and both dates are given, the amount fits the column, the key is free
    and the referenced hotel and room exist; the created row carries the
    dates and the amount as given, and its status is the one given, or
    confirmed when none is given.  The booking form always sends status
    confirmed, so every booking it creates is confirmed.  A rejected input
    creates no booking. *)
Theorem createBooking_unvalidated (now : timestamptz) (u : uuid)
    (p : PartialBooking.t) (d : db) :
  (∀ guest check_in check_out,
      PartialBooking.guest_name p = Some guest →
      PartialBooking.check_in_date p = Some check_in →
      PartialBooking.check_out_date p = Some check_out →
      (Z.abs (default 0 (PartialBooking.total_amount p)) < 10 ^ 10)%Z →
      bookings d !! default u (PartialBooking.id p) = None →
      references (PartialBooking.hotel_id p) (hotels d) = true →
      references (PartialBooking.room_id p) (rooms d) = true →
      ∃ row, createBooking delivered now u p d
             = (Ok (default u (PartialBooking.id p), row),
                with_bookings (<[default u (PartialBooking.id p) := row]> (bookings d)) d))
  ∧ (∀ net data d', createBooking net now u p d = (Ok data, d') →
       Booking.status data.2 = default confirmed (PartialBooking.status p)
       ∧ PartialBooking.check_in_date p = Some (Booking.check_in_date data.2)
       ∧ PartialBooking.check_out_date p = Some (Booking.check_out_date data.2)
       ∧ Booking.total_amount data.2 = default 0%Z (PartialBooking.total_amount p)
       ∧ bookings d !! data.1 = None
       ∧ bookings d' = <[data.1 := data.2]> (bookings d))
  ∧ (∀ net e d', createBooking net now u p d = (Err e, d') → d' = d)
  ∧ (∀ net room hotel form data,
       (handleBookingSubmit net now u room hotel form d).1 = Some (Ok data) →
       Booking.status data.2 = confirmed
       ∧ Booking.check_in_date data.2 = checkInDate form
       ∧ Booking.check_out_date data.2 = checkOutDate form
       ∧ Booking.total_amount data.2 = totalAmount form).
Proof.
  split_and!.
  - intros guest ci co Hg Hci Hco Hamount Hfresh Hh Hr.
    unfold createBooking, insert_bookings, bookings_row.
    apply Z.ltb_lt in Hamount. rewrite Hamount. simpl.
    rewrite Hg, Hci, Hco. simpl.
    rewrite bool_decide_eq_true_2 by done. simpl.
    rewrite Hh, Hr. simpl. by eexists.
  - intros net data d'. unfold createBooking. destruct net; [|discriminate].
    destruct (insert_bookings now u p d) as [data'|] eqn:Hins; [|discriminate].
    intros [= <- <-].
    apply insert_bookings_Ok in Hins as (Hrow & _ & Hfresh).
    apply bookings_row_Ok in Hrow as (_ & Hci & Hco & Hamount & Hs & _).
    done.
  - intros net e d'. unfold createBooking. destruct net; [|by intros [= _ <-]].
    destruct (insert_bookings now u p d); [discriminate|]. by intros [= _ <-].
  - intros net [[rid room]|] [[hid hotel]|] form data; simpl; try discriminate.
    unfold createBooking. destruct net; [|discriminate].
    destruct (insert_bookings _ _ _ _) as [data'|] eqn:Hins; [|discriminate].
    simpl. intros [= <-].
    apply insert_bookings_Ok in Hins as (Hrow & _ & _).
    apply bookings_row_Ok in Hrow as (_ & Hci & Hco & Hamount & Hs & _).
    simpl in *. by simplify_eq.
Qed.

Lemma createBooking_unvalidated_witness :
  ∃ row, createBooking delivered 10 "b1" (Sample.request "Ann" 19732 19730 (-500))
           Sample.empty_db
         = (Ok ("b1", row),
            with_bookings (<["b1" := row]> (bookings Sample.empty_db)) Sample.empty_db).
Proof.
  apply (proj1 (createBooking_unvalidated 10 "b1"
                  (Sample.request "Ann" 19732 19730 (-500)) Sample.empty_db)
           "Ann" 19732%Z 19730%Z);
    try reflexivity.
Defined.

(** C8, as stated, fails: a booking whose check-in date is after its
    check-out date and whose amount is negative is created; a booking can
    be created already checked in; and the form creates a booking for a
    stay of zero nights with amount zero. *)
Lemma createBooking_accepts_invalid :
  let bad := createBooking delivered 10 "b1"
               (Sample.request "Ann" 19732 19730 (-500)) Sample.empty_db in
  let early := createBooking delivered 10 "b1"
      (PartialBooking.mk None (Some "h1") (Some "r101") (Some "Ann") None None
         (Some 19730%Z) (Some 19732%Z) None None (Some checked_in) (Some 20000%Z)
         None None None None) Sample.empty_db in
  let form := calculateTotal (Sample.R101 available) (Sample.form 19730 19730) in
  let sent := handleBookingSubmit delivered 10 "b1"
      (Some ("r101", Sample.R101 available)) (Some ("h1", Sample.hotel)) form
      Sample.empty_db in
  (∃ row, bad.1 = Ok ("b1", row) ∧ bookings bad.2 !! "b1" = Some row
          ∧ (Booking.check_out_date row < Booking.check_in_date row)%Z
          ∧ (Booking.total_amount row < 0)%Z)
  ∧ (∃ row, early.1 = Ok ("b1", row) ∧ bookings early.2 !! "b1" = Some row
            ∧ Booking.status row = checked_in)
  ∧ (∃ row, sent.1 = Some (Ok ("b1", row)) ∧ bookings sent.2 !! "b1" = Some row
            ∧ Booking.check_in_date row = Booking.check_out_date row
            ∧ Booking.total_amount row = 0%Z).
Proof.
  split_and!; eexists; split_and!; vm_compute; reflexivity.
Qed.

(** ** C4: how a booking's status moves *)


Lemma exec_createBooking_lookup net now u p d i (b : Booking.t) :
  bookings d !! i = Some b →
  bookings (createBooking net now u p d).2 !! i = Some b.
Proof.
  intros Hb.
  destruct (createBooking_state net now u p d)
    as [-> | (id & row & _ & Hfresh & ->)]; [done|].
  simpl. rewrite lookup_insert_ne; [done | congruence].
Qed.




(** ** C3: occupied rooms and checked-in bookings *)

Lemma exec_preserves_occupied_has_checked_in o d :
  room_write_delivered o →
  occupied_has_checked_in d → occupied_has_checked_in (exec o d).
Proof.
  intros Ho Hinv.
  destruct o as [net now u p | first second t_in t_upd j
    | first second t_out t_upd t_room j | now];
    cbn [exec room_write_delivered] in *.
  - (* createBooking: no room changes, no booking is replaced *)
    intros r room Hroom Hocc.
    assert (rooms d !! r = Some room) as Hroom'.
    { destruct (createBooking_state net now u p d)
        as [Heq | (id & row & _ & _ & Heq)]; by rewrite Heq in Hroom. }
    destruct (Hinv r room Hroom' Hocc) as (i & b & Hb & Hr & Hs).
    exists i, b. split; [by apply exec_createBooking_lookup | done].
  - (* checkIn *)
    destruct (checkIn_cases first second t_in t_upd j d)
      as [(e & -> & _) | (k & bj & _ & Hk & ->)]; [done|].
    clear j. rename k into j, Hk into Hj.
    rewrite (checkIn_delivered d j bj Hj).
    set (data := Booking.set_checked_in t_in t_upd bj).
    assert (∀ r room, rooms d !! r = Some room → Room.status room = occupied →
              ∃ i b, <[j := data]> (bookings d) !! i = Some b
                     ∧ Booking.room_id b = Some r ∧ Booking.status b = checked_in)
      as Hold.
    { intros r room Hroom Hocc.
      destruct (Hinv r room Hroom Hocc) as (i & b & Hb & Hr & Hs).
      destruct (decide (j = i)) as [->|Hne].
      - exists i, data. rewrite lookup_insert_eq. by simplify_eq.
      - exists i, b. by rewrite lookup_insert_ne. }
    intros r room Hroom Hocc. destruct second; simpl in *; [|eauto].
    rewrite lookup_update_room in Hroom. case_decide as Hr; [|eauto].
    exists j, data. by rewrite lookup_insert_eq.
  - (* checkOut *)
    destruct (checkOut_cases first second t_out t_upd t_room j d)
      as [(e & -> & _) | (k & bj & _ & Hk & ->)]; [done|].
    clear j. rename k into j, Hk into Hj.
    rewrite (checkOut_delivered d j bj Hj). subst second. simpl.
    intros r room Hroom Hocc. simpl in *.
    rewrite lookup_update_room in Hroom. case_decide as Hr.
    + destruct (rooms d !! r); simplify_eq/=.
    + destruct (Hinv r room Hroom Hocc) as (i & b & Hb & Hr' & Hs).
      exists i, b. rewrite lookup_insert_ne; [done|].
      intros ->. by simplify_eq.
  - (* auto_checkout_rooms *)
    intros r room. rewrite rooms_auto_checkout_rooms, lookup_update_rooms.
    rewrite bookings_auto_checkout_rooms.
    destruct (rooms d !! r) as [room0|] eqn:Hroom0; [|done]. simpl.
    case_bool_decide as Hin; intros [= <-]; [done|]. intros Hocc.
    destruct (Hinv r room0 Hroom0 Hocc) as (i & b & Hb & Hr & Hs).
    exists i, b. rewrite lookup_update_bookings, Hb. simpl.
    destruct (expired_where now b) eqn:He; [|done].
    destruct Hin. apply auto_checked_out_after_update. eauto 10.
Qed.

(** C3, as amended: in every state produced from a state where each
    occupied room has a checked-in booking, by any sequence of
    [createBooking], [checkIn], [checkOut] and reclamation operations in
    which the room-status write of each [checkOut] reaches the store, a room
    whose status is occupied has at least one checked-in booking that
    references it. *)
Theorem occupied_has_checked_in_reachable (os : list op) (d : db) :
  occupied_has_checked_in d →
  Forall room_write_delivered os →
  occupied_has_checked_in (run os d).
Proof.
  intros Hinv Hos. revert d Hinv.
  induction Hos as [|o os Ho _ IH]; intros d Hinv; [done|].
  simpl. apply IH. by apply exec_preserves_occupied_has_checked_in.
Qed.

Lemma occupied_has_checked_in_empty_db : occupied_has_checked_in Sample.empty_db.
Proof.
  intros r room Hroom Hocc.
  unfold Sample.empty_db in Hroom. cbn [rooms] in Hroom.
  apply lookup_singleton_Some in Hroom as [_ <-]. discriminate Hocc.
Qed.

Lemma room_write_delivered_double_check_in :
  Forall room_write_delivered Sample.double_check_in.
Proof. repeat constructor. Qed.

Lemma occupied_has_checked_in_reachable_witness :
  ∃ i b, bookings (run Sample.double_check_in Sample.empty_db) !! i = Some b
         ∧ Booking.room_id b = Some "r101" ∧ Booking.status b = checked_in.
Proof.
  apply (occupied_has_checked_in_reachable Sample.double_check_in Sample.empty_db
           occupied_has_checked_in_empty_db room_write_delivered_double_check_in
           "r101" (Room.set_status occupied (Sample.R101 available)));
    reflexivity.
Defined.

(** C3, as stated, fails: from the free room R101, two bookings are
    created and both are checked in; R101 is then occupied with two
    checked-in bookings. *)
Lemma two_checked_in_bookings :
  let d := run Sample.double_check_in Sample.empty_db in
  occupied_iff_one_checked_in Sample.empty_db
  ∧ Room.status <$> rooms d !! "r101" = Some occupied
  ∧ checked_in_count "r101" d = 2
  ∧ ¬ occupied_iff_one_checked_in d.
Proof.
  split_and!; try (vm_compute; reflexivity).
  - intros r room Hroom.
    unfold Sample.empty_db in Hroom. cbn [rooms] in Hroom.
    apply lookup_singleton_Some in Hroom as [<- <-].
    split; [discriminate|]. vm_compute. discriminate.
  - intros Hinv.
    specialize (Hinv "r101" (Room.set_status occupied (Sample.R101 available))
                  eq_refl) as [Hone _].
    specialize (Hone eq_refl). vm_compute in Hone. discriminate.
Qed.

(** ** C9: reading the auto-checkout log *)

#[global] Instance created_at_desc_transitive : Transitive created_at_desc.
Proof. unfold created_at_desc. intros a b c Hab Hbc. lia. Qed.

#[global] Instance created_at_desc_total : Total created_at_desc.
Proof. unfold created_at_desc. intros a b. lia. Qed.

Section select_auto_checkout_logs.
Context (hotelId : uuid) (d : db).

Let matching : list AutoCheckoutLog.t :=
  filter (λ l, AutoCheckoutLog.hotel_id l = Some hotelId) (auto_checkout_logs d).
Let ordered : list AutoCheckoutLog.t := merge_sort created_at_desc matching.

Lemma select_auto_checkout_logs_take :
  select_auto_checkout_logs hotelId d = take 50 ordered.
Proof. reflexivity. Qed.

Lemma elem_of_ordered l :
  l ∈ ordered ↔ AutoCheckoutLog.hotel_id l = Some hotelId ∧ l ∈ auto_checkout_logs d.
Proof.
  unfold ordered. rewrite merge_sort_Permutation.
  unfold matching. by rewrite list_elem_of_filter.
Qed.

Lemma ordered_sorted : StronglySorted created_at_desc ordered.
Proof. apply StronglySorted_merge_sort; apply _. Qed.

Lemma select_auto_checkout_logs_length :
  length (select_auto_checkout_logs hotelId d) = 50 `min` length matching.
Proof.
  rewrite select_auto_checkout_logs_take, length_take.
  unfold ordered. by rewrite merge_sort_Permutation.
Qed.

Lemma select_auto_checkout_logs_sorted :
  StronglySorted created_at_desc (select_auto_checkout_logs hotelId d).
Proof.
  rewrite select_auto_checkout_logs_take.
  pose proof ordered_sorted as Hs.
  rewrite <- (take_drop 50 ordered) in Hs.
  by apply StronglySorted_app_1_l in Hs.
Qed.

Lemma select_auto_checkout_logs_elem_of l :
  l ∈ select_auto_checkout_logs hotelId d →
  l ∈ auto_checkout_logs d ∧ AutoCheckoutLog.hotel_id l = Some hotelId.
Proof.
  rewrite select_auto_checkout_logs_take. intros Hl.
  apply (subseteq_take 50 ordered), elem_of_ordered in Hl. tauto.
Qed.

(** A row of the hotel that is cut off is no more recent than any row
    that is returned. *)
Lemma select_auto_checkout_logs_most_recent l l' :
  l ∈ auto_checkout_logs d → AutoCheckoutLog.hotel_id l = Some hotelId →
  l ∉ select_auto_checkout_logs hotelId d →
  l' ∈ select_auto_checkout_logs hotelId d →
  (AutoCheckoutLog.created_at l ≤ AutoCheckoutLog.created_at l')%Z.
Proof.
  rewrite select_auto_checkout_logs_take. intros Hin Hh Hcut Hl'.
  assert (l ∈ ordered) as Hl by (apply elem_of_ordered; done).
  rewrite <- (take_drop 50 ordered), elem_of_app in Hl.
  destruct Hl as [Hl | Hl]; [done|].
  pose proof ordered_sorted as Hs.
  rewrite <- (take_drop 50 ordered) in Hs.
  exact (StronglySorted_app_1_elem_of _ _ _ _ _ Hs Hl' Hl).
Qed.
End select_auto_checkout_logs.

(** The rows that the limit cuts off: with them the selected rows make up
    the hotel's log, row for row, and none of them is more recent than a
    selected row. *)
Lemma select_auto_checkout_logs_rest hotelId d :
  ∃ rest,
    select_auto_checkout_logs hotelId d ++ rest
    ≡ₚ filter (λ l, AutoCheckoutLog.hotel_id l = Some hotelId) (auto_checkout_logs d)
    ∧ ∀ l l', l ∈ rest → l' ∈ select_auto_checkout_logs hotelId d →
        (AutoCheckoutLog.created_at l ≤ AutoCheckoutLog.created_at l')%Z.
Proof.
  unfold select_auto_checkout_logs.
  set (sorted := merge_sort created_at_desc _).
  exists (drop 50 sorted). split.
  - rewrite take_drop. apply merge_sort_Permutation.
  - intros l l' Hl Hl'.
    assert (StronglySorted created_at_desc (take 50 sorted ++ drop 50 sorted)) as Hs.
    { rewrite take_drop. apply StronglySorted_merge_sort; apply _. }
    exact (StronglySorted_app_1_elem_of _ _ _ _ _ Hs Hl' Hl).
Qed.

(** C9: for every hotel id, a delivered [getAutoCheckoutLogs] returns rows
    of that hotel's auto-checkout log, ordered by [created_at] descending,
    and at most 50 of them (exactly 50 when the hotel has more).  The rows
    returned are rows of the log counted as often as they occur there:
    together with the rows left out they make up the hotel's log, and the
    rows left out are no more recent than the rows returned. *)
Theorem getAutoCheckoutLogs_recent_first (hotelId : uuid) (d : db) :
  ∃ data, getAutoCheckoutLogs delivered hotelId d = Ok data
    ∧ length data ≤ 50
    ∧ length data
      = 50 `min` length (filter (λ l, AutoCheckoutLog.hotel_id l = Some hotelId)
                           (auto_checkout_logs d))
    ∧ StronglySorted created_at_desc (log <$> data)
    ∧ (∀ row, row ∈ data →
         log row ∈ auto_checkout_logs d
         ∧ AutoCheckoutLog.hotel_id (log row) = Some hotelId
         ∧ row = embed d (log row))
    ∧ (∀ l row, l ∈ auto_checkout_logs d →
         AutoCheckoutLog.hotel_id l = Some hotelId →
         l ∉ log <$> data → row ∈ data →
         (AutoCheckoutLog.created_at l ≤ AutoCheckoutLog.created_at (log row))%Z)
    ∧ (∃ rest,
         (log <$> data) ++ rest
         ≡ₚ filter (λ l, AutoCheckoutLog.hotel_id l = Some hotelId)
              (auto_checkout_logs d)
         ∧ ∀ l row, l ∈ rest → row ∈ data →
             (AutoCheckoutLog.created_at l
              ≤ AutoCheckoutLog.created_at (log row))%Z).
Proof.
  eexists. split; [reflexivity|].
  assert (log <$> (embed d <$> select_auto_checkout_logs hotelId d)
          = select_auto_checkout_logs hotelId d) as Hlog.
  { rewrite <- list_fmap_compose. apply list_fmap_id. }
  rewrite Hlog, length_fmap, select_auto_checkout_logs_length.
  split_and!.
  - lia.
  - done.
  - apply select_auto_checkout_logs_sorted.
  - intros row Hrow. apply list_elem_of_fmap in Hrow as (l & -> & Hl).
    apply select_auto_checkout_logs_elem_of in Hl as [Hin Hh]. done.
  - intros l row Hin Hh Hcut Hrow.
    apply list_elem_of_fmap in Hrow as (l' & -> & Hl').
    by apply (select_auto_checkout_logs_most_recent hotelId d).
  - destruct (select_auto_checkout_logs_rest hotelId d) as (rest & Hperm & Hold).
    exists rest. split; [done|]. intros l row Hl Hrow.
    apply list_elem_of_fmap in Hrow as (l' & -> & Hl'). by apply Hold.
Qed.

Lemma getAutoCheckoutLogs_recent_first_witness :
  ∃ data, getAutoCheckoutLogs delivered "h1" Sample.logs_db = Ok data
    ∧ data
      = [ mkAutoCheckoutLogRow (Sample.log "h1" 200) (Some "Room 101") (Some "Ann");
          mkAutoCheckoutLogRow (Sample.log "h1" 100) (Some "Room 101") (Some "Ann") ]
    ∧ ∃ rest,
        (log <$> data) ++ rest
        ≡ₚ filter (λ l, AutoCheckoutLog.hotel_id l = Some "h1")
             (auto_checkout_logs Sample.logs_db).
Proof.
  destruct (getAutoCheckoutLogs_recent_first "h1" Sample.logs_db)
    as (data & Hrun & _ & _ & _ & _ & _ & rest & Hperm & _).
  exists data. split; [exact Hrun|]. split; [|by exists rest].
  vm_compute in Hrun. injection Hrun as <-. reflexivity.
Defined.

Example getAutoCheckoutLogs_logs_db :
  getAutoCheckoutLogs delivered "h1" Sample.logs_db
  = Ok [ mkAutoCheckoutLogRow (Sample.log "h1" 200) (Some "Room 101") (Some "Ann");
         mkAutoCheckoutLogRow (Sample.log "h1" 100) (Some "Room 101") (Some "Ann") ].
Proof. vm_compute. reflexivity. Qed.

(** * More properties of the code *)

(** ** The audit rows of [auto_checkout_rooms] *)

Lemma elem_of_auto_checkout_log_rows now bs l :
  l ∈ auto_checkout_log_rows now bs
  ↔ ∃ i b, bs !! i = Some b ∧ auto_checked_out_today_where now b = true
           ∧ l = AutoCheckoutLog.mk (Booking.hotel_id b) (Booking.room_id b)
                   (Some i) now "daily_auto_checkout_10am" now.
Proof.
  unfold auto_checkout_log_rows. rewrite list_elem_of_fmap. split.
  - intros ([i b] & -> & Hin). apply list_elem_of_filter in Hin as [Hsel Hin].
    apply elem_of_map_to_list in Hin. by exists i, b.
  - intros (i & b & Hb & Hsel & ->). exists (i, b). split; [done|].
    apply list_elem_of_filter. split; [done|]. by apply elem_of_map_to_list.
Qed.

Lemma elem_of_room_status_history_rows now rs h :
  h ∈ room_status_history_rows now rs
  ↔ ∃ r room, rs !! r = Some room ∧ checked_out_today_where now room = true
              ∧ h = RoomStatusHistory.mk (Some r) (Some "occupied") (Some "available")
                      None (Some "auto_checkout_daily_10am") now.
Proof.
  unfold room_status_history_rows. rewrite list_elem_of_fmap. split.
  - intros ([r room] & -> & Hin). apply list_elem_of_filter in Hin as [Hsel Hin].
    apply elem_of_map_to_list in Hin. by exists r, room.
  - intros (r & room & Hr & Hsel & ->). exists (r, room). split; [done|].
    apply list_elem_of_filter. split; [done|]. by apply elem_of_map_to_list.
Qed.

Lemma room_status_history_auto_checkout_rooms now d :
  room_status_history (auto_checkout_rooms now d)
  = room_status_history d
    ++ room_status_history_rows now (rooms (auto_checkout_rooms now d)).
Proof. reflexivity. Qed.

(** In a list of keyed rows without repeated keys, a key that occurs
    occurs once. *)
Lemma length_filter_key {V} (l : list (uuid * V)) i v :
  NoDup l.*1 → (i, v) ∈ l →
  length (filter (λ kv : uuid * V, kv.1 = i) l) = 1.
Proof.
  induction l as [|[j w] l IH]; intros Hnd Hin; [by apply elem_of_nil in Hin|].
  apply NoDup_cons in Hnd as [Hj Hnd]. rewrite filter_cons. simpl in *.
  apply elem_of_cons in Hin as [[= <- <-] | Hin].
  - rewrite decide_True by done. simpl. f_equal.
    apply length_zero_iff_nil, elem_of_nil_inv. intros [k u] Hk.
    apply list_elem_of_filter in Hk as [Hk Hin]. simpl in Hk. subst k.
    apply Hj, list_elem_of_fmap. by exists (i, u).
  - rewrite decide_False; [by apply IH|].
    intros ->. apply Hj, list_elem_of_fmap. by exists (i, v).
Qed.

Lemma length_auto_checkout_log_rows_key now bs i :
  length (filter (λ l, AutoCheckoutLog.booking_id l = Some i)
            (auto_checkout_log_rows now bs))
  = length (filter (λ kb : uuid * Booking.t, kb.1 = i)
              (filter (λ kb : uuid * Booking.t,
                         auto_checked_out_today_where now kb.2 = true)
                 (map_to_list bs))).
Proof.
  unfold auto_checkout_log_rows.
  induction (filter _ (map_to_list bs)) as [|[j b] l IH]; [done|].
  rewrite fmap_cons, !filter_cons. simpl.
  destruct (decide (j = i)) as [->|Hne].
  - rewrite decide_True by done. simpl. by rewrite IH.
  - rewrite decide_False by congruence. done.
Qed.

(** X1: every booking that a run of [auto_checkout_rooms] reclaims gets a
    row in the auto-checkout log carrying its hotel, room and id and the
    run's time, and the run appends exactly one row for that booking. *)
Theorem auto_checkout_rooms_logs_reclaimed (d : db) (now : timestamptz)
    (i : uuid) (b : Booking.t) :
  bookings d !! i = Some b →
  Booking.status b = checked_in →
  (Booking.check_out_date b ≤ DATE now)%Z →
  ∃ rows,
    auto_checkout_logs (auto_checkout_rooms now d) = auto_checkout_logs d ++ rows
    ∧ AutoCheckoutLog.mk (Booking.hotel_id b) (Booking.room_id b) (Some i) now
        "daily_auto_checkout_10am" now ∈ rows
    ∧ length (filter (λ l, AutoCheckoutLog.booking_id l = Some i) rows) = 1.
Proof.
  intros Hb Hs Hd. eexists. split; [apply auto_checkout_logs_auto_checkout_rooms|].
  assert (expired_where now b = true) as He by (by apply expired_where_true).
  assert (update_bookings now (bookings d) !! i
          = Some (Booking.set_auto_checked_out now b)) as Hb'.
  { rewrite lookup_update_bookings, Hb. simpl. by rewrite He. }
  split.
  - apply elem_of_auto_checkout_log_rows.
    exists i, (Booking.set_auto_checked_out now b).
    split; [done|]. split; [apply auto_checked_out_today_set | done].
  - rewrite length_auto_checkout_log_rows_key.
    apply (length_filter_key _ i (Booking.set_auto_checked_out now b)).
    + apply (sublist_NoDup _ (map_to_list (update_bookings now (bookings d))).*1).
      * apply NoDup_fst_map_to_list.
      * apply fmap_sublist, sublist_filter.
    + apply list_elem_of_filter. split; [apply auto_checked_out_today_set|].
      by apply elem_of_map_to_list.
Qed.

Lemma auto_checkout_rooms_logs_reclaimed_witness :
  bookings Sample.occupied_db !! "b1" = Some Sample.B1
  ∧ Booking.status Sample.B1 = checked_in
  ∧ (Booking.check_out_date Sample.B1 ≤ DATE Sample.T)%Z
  ∧ ∃ rows,
      auto_checkout_logs (auto_checkout_rooms Sample.T Sample.occupied_db)
      = auto_checkout_logs Sample.occupied_db ++ rows
      ∧ length (filter (λ l, AutoCheckoutLog.booking_id l = Some "b1") rows) = 1.
Proof.
  assert (bookings Sample.occupied_db !! "b1" = Some Sample.B1) as Hb
    by reflexivity.
  assert (Booking.status Sample.B1 = checked_in) as Hs by reflexivity.
  assert (Booking.check_out_date Sample.B1 ≤ DATE Sample.T)%Z as Hd
    by (vm_compute; discriminate).
  split; [exact Hb|]. split; [exact Hs|]. split; [exact Hd|].
  destruct (auto_checkout_rooms_logs_reclaimed Sample.occupied_db Sample.T "b1"
              Sample.B1 Hb Hs Hd) as (rows & Hlogs & _ & Hone).
  exists rows. split; [exact Hlogs | exact Hone].
Defined.

(** X2: the auto-checkout log is append-only under [auto_checkout_rooms],
    and every row a run appends is about a booking that, after the run, is
    checked out with [auto_checkout] set and [actual_check_out] on the
    reference date; the row carries that booking's hotel and room. *)
Theorem auto_checkout_rooms_logs_sound (d : db) (now : timestamptz) :
  ∃ rows,
    auto_checkout_logs (auto_checkout_rooms now d) = auto_checkout_logs d ++ rows
    ∧ ∀ l, l ∈ rows →
        ∃ i b, bookings (auto_checkout_rooms now d) !! i = Some b
          ∧ Booking.status b = checked_out
          ∧ Booking.auto_checkout b = true
          ∧ (∃ t, Booking.actual_check_out b = Some t ∧ DATE t = DATE now)
          ∧ l = AutoCheckoutLog.mk (Booking.hotel_id b) (Booking.room_id b)
                  (Some i) now "daily_auto_checkout_10am" now.
Proof.
  eexists. split; [apply auto_checkout_logs_auto_checkout_rooms|].
  intros l Hl. apply elem_of_auto_checkout_log_rows in Hl as (i & b & Hb & Hsel & ->).
  apply auto_checked_out_today_where_true in Hsel as (Hs & Ha & Ht).
  exists i, b. by rewrite bookings_auto_checkout_rooms.
Qed.

(** X3: running [auto_checkout_rooms] twice at the same reference time
    logs twice: the second run appends again the very rows that the first
    run appended. *)
Theorem auto_checkout_rooms_twice_logs_again (d : db) (now : timestamptz) :
  ∃ rows,
    auto_checkout_logs (auto_checkout_rooms now d) = auto_checkout_logs d ++ rows
    ∧ auto_checkout_logs (auto_checkout_rooms now (auto_checkout_rooms now d))
      = auto_checkout_logs d ++ rows ++ rows.
Proof.
  exists (auto_checkout_log_rows now (update_bookings now (bookings d))).
  split; [apply auto_checkout_logs_auto_checkout_rooms|].
  rewrite auto_checkout_rooms_twice_logs, bookings_auto_checkout_rooms.
  by rewrite auto_checkout_logs_auto_checkout_rooms, <- (assoc_L (++)).
Qed.

(** X4: after [auto_checkout_rooms] no booking is left checked in with a
    check-out date on or before the reference date. *)
Theorem auto_checkout_rooms_none_expired (d : db) (now : timestamptz)
    (i : uuid) (b : Booking.t) :
  bookings (auto_checkout_rooms now d) !! i = Some b →
  ¬ (Booking.status b = checked_in ∧ (Booking.check_out_date b ≤ DATE now)%Z).
Proof.
  rewrite bookings_auto_checkout_rooms, lookup_update_bookings.
  destruct (bookings d !! i) as [b0|]; [|done]. simpl.
  destruct (expired_where now b0) eqn:He; intros [= <-] Hsel.
  - by destruct Hsel as [[=] _].
  - apply expired_where_true in Hsel. congruence.
Qed.

Lemma auto_checkout_rooms_none_expired_witness :
  bookings (auto_checkout_rooms Sample.T Sample.occupied_db) !! "b1"
  = Some (Booking.set_auto_checked_out Sample.T Sample.B1)
  ∧ ¬ (Booking.status (Booking.set_auto_checked_out Sample.T Sample.B1) = checked_in
       ∧ (Booking.check_out_date (Booking.set_auto_checked_out Sample.T Sample.B1)
          ≤ DATE Sample.T)%Z).
Proof.
  assert (bookings (auto_checkout_rooms Sample.T Sample.occupied_db) !! "b1"
          = Some (Booking.set_auto_checked_out Sample.T Sample.B1)) as Hb
    by reflexivity.
  split; [exact Hb|].
  exact (auto_checkout_rooms_none_expired Sample.occupied_db Sample.T "b1" _ Hb).
Defined.

(** X5: [auto_checkout_rooms] creates and deletes nothing and re-assigns
    nothing: the hotels, the set of room ids and the set of booking ids are
    unchanged, every booking keeps its hotel, room, guest, dates, amount
    and check-in time, and every room keeps its hotel, number and price. *)
Theorem auto_checkout_rooms_frame (d : db) (now : timestamptz) :
  let d' := auto_checkout_rooms now d in
  hotels d' = hotels d
  ∧ dom (rooms d') = dom (rooms d)
  ∧ dom (bookings d') = dom (bookings d)
  ∧ (∀ i b', bookings d' !! i = Some b' →
       ∃ b, bookings d !! i = Some b
         ∧ Booking.hotel_id b' = Booking.hotel_id b
         ∧ Booking.room_id b' = Booking.room_id b
         ∧ Booking.guest_name b' = Booking.guest_name b
         ∧ Booking.check_in_date b' = Booking.check_in_date b
         ∧ Booking.check_out_date b' = Booking.check_out_date b
         ∧ Booking.total_amount b' = Booking.total_amount b
         ∧ Booking.payment_status b' = Booking.payment_status b
         ∧ Booking.actual_check_in b' = Booking.actual_check_in b)
  ∧ (∀ r room', rooms d' !! r = Some room' →
       ∃ room, rooms d !! r = Some room
         ∧ Room.hotel_id room' = Room.hotel_id room
         ∧ Room.room_number room' = Room.room_number room
         ∧ Room.price_per_night room' = Room.price_per_night room
         ∧ (Room.status room' = Room.status room ∨ Room.status room' = available)).
Proof.
  intros d'. unfold d'. split_and!.
  - done.
  - rewrite rooms_auto_checkout_rooms. apply set_eq. intros r.
    rewrite !elem_of_dom, lookup_update_rooms, fmap_is_Some. done.
  - rewrite bookings_auto_checkout_rooms. apply dom_fmap_L.
  - intros i b'. rewrite bookings_auto_checkout_rooms, lookup_update_bookings.
    destruct (bookings d !! i) as [b|]; [|done]. simpl. intros [= <-].
    exists b. by destruct (expired_where now b).
  - intros r room'. rewrite rooms_auto_checkout_rooms, lookup_update_rooms.
    destruct (rooms d !! r) as [room|]; [|done]. simpl. intros [= <-].
    exists room. case_bool_decide; simpl; auto 10.
Qed.

(** ** The room-status history *)

Lemma checked_out_today_where_set now u room :
  checked_out_today_where now
    (Room.set_status_last_checkout_updated available now u room) = true.
Proof.
  unfold checked_out_today_where, CURRENT_DATE. simpl.
  by rewrite Z.eqb_refl.
Qed.

(** X6: every room whose booking a run of [auto_checkout_rooms] reclaims
    gets a row in the room-status history, and that row says
    occupied -> available whatever the status of the room was before the
    run; the history is append-only. *)
Theorem auto_checkout_rooms_history (d : db) (now : timestamptz)
    (r : uuid) (room : Room.t) (i : uuid) (b : Booking.t) :
  rooms d !! r = Some room →
  bookings d !! i = Some b →
  Booking.room_id b = Some r →
  Booking.status b = checked_in →
  (Booking.check_out_date b ≤ DATE now)%Z →
  ∃ rows,
    room_status_history (auto_checkout_rooms now d) = room_status_history d ++ rows
    ∧ RoomStatusHistory.mk (Some r) (Some "occupied") (Some "available") None
        (Some "auto_checkout_daily_10am") now ∈ rows.
Proof.
  intros Hroom Hb Hr Hs Hd.
  eexists. split; [apply room_status_history_auto_checkout_rooms|].
  apply elem_of_room_status_history_rows.
  exists r, (Room.set_status_last_checkout_updated available now now room).
  split; [|split; [by apply checked_out_today_where_set | done]].
  rewrite rooms_auto_checkout_rooms, lookup_update_rooms, Hroom. simpl.
  rewrite bool_decide_eq_true_2; [done|].
  apply auto_checked_out_after_update. exists i, b.
  split; [done|]. split; [done|]. left. by apply expired_where_true.
Qed.

Lemma auto_checkout_rooms_history_witness :
  rooms Sample.maintenance_db !! "r101" = Some (Sample.R101 maintenance)
  ∧ bookings Sample.maintenance_db !! "b1" = Some Sample.B1
  ∧ ∃ rows,
      room_status_history (auto_checkout_rooms Sample.T Sample.maintenance_db)
      = room_status_history Sample.maintenance_db ++ rows
      ∧ RoomStatusHistory.mk (Some "r101") (Some "occupied") (Some "available") None
          (Some "auto_checkout_daily_10am") Sample.T ∈ rows.
Proof.
  assert (rooms Sample.maintenance_db !! "r101" = Some (Sample.R101 maintenance))
    as Hroom by reflexivity.
  assert (bookings Sample.maintenance_db !! "b1" = Some Sample.B1) as Hb
    by reflexivity.
  assert (Booking.check_out_date Sample.B1 ≤ DATE Sample.T)%Z as Hd
    by (vm_compute; discriminate).
  split; [exact Hroom|]. split; [exact Hb|].
  exact (auto_checkout_rooms_history Sample.maintenance_db Sample.T "r101"
           (Sample.R101 maintenance) "b1" Sample.B1 Hroom Hb eq_refl eq_refl Hd).
Defined.

(** X7: a room freed by a manual [checkOut] is written to the room-status
    history by the next run of [auto_checkout_rooms] on the same calendar
    day, with the reason of the automatic check-out: statement 4 selects
    rooms by their state, not by the bookings the run reclaimed. *)
Theorem checkOut_then_auto_checkout_rooms_history (d : db) (i : uuid)
    (b : Booking.t) (r : uuid) (room : Room.t)
    (t_out t_upd t_room now : timestamptz) :
  bookings d !! i = Some b →
  Booking.room_id b = Some r →
  rooms d !! r = Some room →
  DATE t_room = DATE now →
  let d1 := (checkOut delivered delivered t_out t_upd t_room i d).2 in
  ∃ rows,
    room_status_history (auto_checkout_rooms now d1) = room_status_history d ++ rows
    ∧ RoomStatusHistory.mk (Some r) (Some "occupied") (Some "available") None
        (Some "auto_checkout_daily_10am") now ∈ rows.
Proof.
  intros Hb Hr Hroom Hday d1.
  assert (rooms d1 !! r
          = Some (Room.set_status_last_checkout available t_room room)) as Hroom1.
  { unfold d1. rewrite (checkOut_delivered d i b Hb). simpl.
    rewrite lookup_update_room, decide_True by done. by rewrite Hroom. }
  assert (room_status_history d1 = room_status_history d) as Hhist.
  { unfold d1. by rewrite (checkOut_delivered d i b Hb). }
  eexists. split.
  { rewrite room_status_history_auto_checkout_rooms. by rewrite Hhist. }
  apply elem_of_room_status_history_rows.
  eexists r, _. split; [|split; [|done]].
  - rewrite rooms_auto_checkout_rooms, lookup_update_rooms, Hroom1. done.
  - simpl. case_bool_decide.
    + by apply checked_out_today_where_set.
    + unfold checked_out_today_where, CURRENT_DATE. simpl.
      by apply Z.eqb_eq.
Qed.

Lemma checkOut_then_auto_checkout_rooms_history_witness :
  bookings Sample.occupied_db !! "b1" = Some Sample.B1
  ∧ DATE (Sample.T - 3600) = DATE Sample.T
  ∧ ∃ rows,
      room_status_history
        (auto_checkout_rooms Sample.T
           (checkOut delivered delivered (Sample.T - 3600) (Sample.T - 3600)
              (Sample.T - 3600) "b1" Sample.occupied_db).2)
      = room_status_history Sample.occupied_db ++ rows
      ∧ RoomStatusHistory.mk (Some "r101") (Some "occupied") (Some "available") None
          (Some "auto_checkout_daily_10am") Sample.T ∈ rows.
Proof.
  assert (bookings Sample.occupied_db !! "b1" = Some Sample.B1) as Hb
    by reflexivity.
  assert (DATE (Sample.T - 3600) = DATE Sample.T) as Hday by reflexivity.
  split; [exact Hb|]. split; [exact Hday|].
  exact (checkOut_then_auto_checkout_rooms_history Sample.occupied_db "b1"
           Sample.B1 "r101" (Sample.R101 occupied) (Sample.T - 3600)
           (Sample.T - 3600) (Sample.T - 3600) Sample.T Hb eq_refl eq_refl Hday).
Defined.

(** X8: a booking that was checked out by hand, and whose [auto_checkout]
    flag is not set, is not logged by a later run of
    [auto_checkout_rooms]: none of the rows the run appends is about it. *)
Theorem checkOut_then_auto_checkout_rooms_not_logged (d : db) (i : uuid)
    (b : Booking.t) (second : transport) (t_out t_upd t_room now : timestamptz) :
  bookings d !! i = Some b →
  Booking.auto_checkout b = false →
  let d1 := (checkOut delivered second t_out t_upd t_room i d).2 in
  ∃ rows,
    auto_checkout_logs (auto_checkout_rooms now d1) = auto_checkout_logs d ++ rows
    ∧ ∀ l, l ∈ rows → AutoCheckoutLog.booking_id l ≠ Some i.
Proof.
  intros Hb Hauto d1.
  assert (bookings d1 !! i = Some (Booking.set_checked_out t_out t_upd b)) as Hb1.
  { unfold d1. rewrite (checkOut_delivered d i b Hb).
    destruct second; simpl; apply lookup_insert_eq. }
  assert (auto_checkout_logs d1 = auto_checkout_logs d) as Hlogs.
  { unfold d1. rewrite (checkOut_delivered d i b Hb). by destruct second. }
  eexists. split.
  { rewrite auto_checkout_logs_auto_checkout_rooms. by rewrite Hlogs. }
  intros l Hl Hi.
  apply elem_of_auto_checkout_log_rows in Hl as (j & b' & Hb' & Hsel & ->).
  simpl in Hi. injection Hi as ->.
  rewrite lookup_update_bookings, Hb1 in Hb'. simpl in Hb'.
  injection Hb' as <-.
  apply auto_checked_out_today_where_true in Hsel as (_ & Ha & _).
  simpl in Ha. congruence.
Qed.

Lemma checkOut_then_auto_checkout_rooms_not_logged_witness :
  bookings Sample.occupied_db !! "b1" = Some Sample.B1
  ∧ Booking.auto_checkout Sample.B1 = false
  ∧ ∃ rows,
      auto_checkout_logs
        (auto_checkout_rooms Sample.T
           (checkOut delivered delivered 7 8 9 "b1" Sample.occupied_db).2)
      = auto_checkout_logs Sample.occupied_db ++ rows
      ∧ ∀ l, l ∈ rows → AutoCheckoutLog.booking_id l ≠ Some "b1".
Proof.
  assert (bookings Sample.occupied_db !! "b1" = Some Sample.B1) as Hb
    by reflexivity.
  split; [exact Hb|]. split; [reflexivity|].
  exact (checkOut_then_auto_checkout_rooms_not_logged Sample.occupied_db "b1"
           Sample.B1 delivered 7 8 9 Sample.T Hb eq_refl).
Defined.

(** X9: the front-desk operations leave no audit trail: [createBooking],
    [checkIn], [checkOut] and [updateRoomStatus] never write the
    auto-checkout log or the room-status history. *)
Theorem front_desk_writes_no_audit (d : db) :
  (∀ o, (∀ now, o ≠ OpAutoCheckout now) →
     auto_checkout_logs (exec o d) = auto_checkout_logs d
     ∧ room_status_history (exec o d) = room_status_history d)
  ∧ (∀ net t_upd roomId status,
       auto_checkout_logs (updateRoomStatus net t_upd roomId status d).2
       = auto_checkout_logs d
       ∧ room_status_history (updateRoomStatus net t_upd roomId status d).2
         = room_status_history d).
Proof.
  split.
  - intros o Ho. destruct o as [net now u p | first second t_in t_upd j
      | first second t_out t_upd t_room j | now]; cbn [exec].
    + by destruct (createBooking_state net now u p d)
        as [-> | (id & row & _ & _ & ->)].
    + unfold checkIn. destruct first; [|done].
      destruct (single_by_id j (bookings d)) as [[k b]|]; [|done].
      by destruct second.
    + unfold checkOut. destruct first; [|done].
      destruct (single_by_id j (bookings d)) as [[k b]|]; [|done].
      by destruct second.
    + by destruct (Ho now).
  - intros net t_upd roomId status. unfold updateRoomStatus.
    destruct net; [|done].
    by destruct (single_by_id roomId (rooms d)) as [[k r]|].
Qed.

Lemma front_desk_writes_no_audit_witness :
  room_status_history
    (exec (OpCheckOut delivered delivered 7 8 9 "b1") Sample.occupied_db)
  = room_status_history Sample.occupied_db.
Proof.
  apply (proj1 (front_desk_writes_no_audit Sample.occupied_db)
           (OpCheckOut delivered delivered 7 8 9 "b1")).
  intros now. discriminate.
Defined.

(** ** More of the front desk *)

(** X10: [updateRoomStatus] on a known room returns the room with the
    new status and time of update, stores it under the same id, keeps the
    room's [last_checkout], and touches no other room and no booking (so
    the room may be set to occupied without any checked-in booking).  A
    delivered call fails only for an id that denotes no room: with
    Postgres's 22P02 when the id is not the text of a uuid, with the
    store's no-row error when it is a uuid that is the key of no room;
    either way it changes nothing. *)
Theorem updateRoomStatus_effect (d : db) (t_upd : timestamptz) (roomId : uuid)
    (status : room_status) :
  (∀ room, rooms d !! roomId = Some room →
     ∃ data d',
       updateRoomStatus delivered t_upd roomId status d = (Ok (roomId, data), d')
       ∧ Room.status data = status
       ∧ Room.updated_at data = t_upd
       ∧ Room.last_checkout data = Room.last_checkout room
       ∧ rooms d' !! roomId = Some data
       ∧ (∀ r, r ≠ roomId → rooms d' !! r = rooms d !! r)
       ∧ bookings d' = bookings d)
  ∧ (∀ e d', updateRoomStatus delivered t_upd roomId status d = (Err e, d') →
       d' = d ∧ rooms d !! roomId = None
       ∧ (uuid_in roomId = None ∧ e = invalid_text_representation
          ∨ ∃ u, uuid_in roomId = Some u ∧ rooms d !! u = None ∧ e = PGRST116))
  ∧ (rooms d !! roomId = None → uuid_in roomId = None →
       updateRoomStatus delivered t_upd roomId status d
       = (Err invalid_text_representation, d))
  ∧ (∀ u, rooms d !! roomId = None → uuid_in roomId = Some u → rooms d !! u = None →
       updateRoomStatus delivered t_upd roomId status d = (Err PGRST116, d)).
Proof.
  unfold updateRoomStatus. split_and!.
  - intros room Hroom. rewrite (single_by_id_hit _ _ _ Hroom).
    eexists _, _. split; [done|]. simpl. split_and!; try done.
    + apply lookup_insert_eq.
    + intros r Hr. by apply lookup_insert_ne.
  - intros e d'.
    destruct (single_by_id roomId (rooms d)) as [[k r]|e'] eqn:Hid; [discriminate|].
    intros [= <- <-]. by apply single_by_id_Err in Hid as [? ?].
  - intros Hnone Hbad. unfold single_by_id. by rewrite Hnone, Hbad.
  - intros u Hnone Hu Hnone'. unfold single_by_id. by rewrite Hnone, Hu, Hnone'.
Qed.

Lemma updateRoomStatus_effect_witness :
  rooms Sample.empty_db !! "r101" = Some (Sample.R101 available)
  ∧ ∃ data d',
      updateRoomStatus delivered 5 "r101" occupied Sample.empty_db
      = (Ok ("r101", data), d')
      ∧ Room.status data = occupied
      ∧ bookings d' = bookings Sample.empty_db.
Proof.
  assert (rooms Sample.empty_db !! "r101" = Some (Sample.R101 available)) as Hroom
    by reflexivity.
  split; [exact Hroom|].
  destruct (proj1 (updateRoomStatus_effect Sample.empty_db 5 "r101" occupied)
              _ Hroom) as (data & d' & Hrun & Hs & _ & _ & _ & _ & Hbs).
  exists data, d'. split; [exact Hrun|]. split; [exact Hs | exact Hbs].
Defined.

(** The two failures of [updateRoomStatus] on the sample hotel. *)
Example updateRoomStatus_unknown_ids :
  updateRoomStatus delivered 5 "not-a-uuid" occupied Sample.empty_db
  = (Err invalid_text_representation, Sample.empty_db)
  ∧ updateRoomStatus delivered 5 "a0eebc99-9c0b-4ef8-bb6d-6bb9bd380a11" occupied
      Sample.empty_db
    = (Err PGRST116, Sample.empty_db).
Proof. split; reflexivity. Qed.

Lemma elem_of_checked_in_bookings roomId d i b :
  (i, b) ∈ checked_in_bookings roomId d
  ↔ bookings d !! i = Some b
    ∧ Booking.room_id b = Some roomId ∧ Booking.status b = checked_in.
Proof.
  unfold checked_in_bookings.
  rewrite list_elem_of_filter, elem_of_map_to_list. simpl. tauto.
Qed.

(** X11: a delivered [getRoomWithBooking] fails only with Postgres's
    22P02, for an id that is not the text of a uuid.  For the id of a room
    it returns null when no checked-in booking references the room, and
    otherwise the room together with all the checked-in bookings that
    reference it, and only those; for a uuid that is the key of no room it
    returns null. *)
Theorem getRoomWithBooking_result (roomId : uuid) (d : db) :
  (∀ room, rooms d !! roomId = Some room →
     (checked_in_count roomId d = 0 →
        getRoomWithBooking delivered roomId d = Ok None)
     ∧ (0 < checked_in_count roomId d →
        ∃ bs, getRoomWithBooking delivered roomId d = Ok (Some (room, bs))
          ∧ length bs = checked_in_count roomId d
          ∧ ∀ i b, (i, b) ∈ bs
              ↔ bookings d !! i = Some b
                ∧ Booking.room_id b = Some roomId
                ∧ Booking.status b = checked_in))
  ∧ (rooms d !! roomId = None → uuid_in roomId = None →
       getRoomWithBooking delivered roomId d = Err invalid_text_representation)
  ∧ (∀ u, rooms d !! roomId = None → uuid_in roomId = Some u → rooms d !! u = None →
       getRoomWithBooking delivered roomId d = Ok None)
  ∧ (∀ e, getRoomWithBooking delivered roomId d = Err e →
       e = invalid_text_representation
       ∧ rooms d !! roomId = None ∧ uuid_in roomId = None)
  ∧ (∀ room bs, getRoomWithBooking delivered roomId d = Ok (Some (room, bs)) →
       ∃ k, (k = roomId ∨ uuid_in roomId = Some k)
         ∧ rooms d !! k = Some room
         ∧ length bs = checked_in_count k d
         ∧ 0 < length bs
         ∧ ∀ i b, (i, b) ∈ bs
             ↔ bookings d !! i = Some b
               ∧ Booking.room_id b = Some k ∧ Booking.status b = checked_in).
Proof.
  unfold getRoomWithBooking. split_and!.
  - intros room Hroom. rewrite (single_by_id_hit _ _ _ Hroom).
    change (checked_in_count roomId d) with (length (checked_in_bookings roomId d)).
    pose proof (elem_of_checked_in_bookings roomId d) as Hin.
    destruct (checked_in_bookings roomId d) as [|kb bs]; simpl.
    + split; [done | lia].
    + split; [discriminate|]. intros _. by eexists.
  - intros Hnone Hbad. unfold single_by_id. by rewrite Hnone, Hbad.
  - intros u Hnone Hu Hnone'. unfold single_by_id. by rewrite Hnone, Hu, Hnone'.
  - intros e.
    destruct (single_by_id roomId (rooms d)) as [[k room]|e'] eqn:Hid.
    + by destruct (checked_in_bookings k d).
    + apply single_by_id_Err in Hid as [Hnone [[Hbad ->] | (u & _ & _ & ->)]];
        [by intros [= <-] | discriminate].
  - intros room bs.
    destruct (single_by_id roomId (rooms d)) as [[k room']|e'] eqn:Hid;
      [|by destruct e'].
    change (checked_in_count k d) with (length (checked_in_bookings k d)).
    pose proof (elem_of_checked_in_bookings k d) as Hin.
    destruct (checked_in_bookings k d) as [|kb bs'] eqn:Hbs; [discriminate|].
    intros [= <- <-]. exists k. split_and!; try done.
    + revert Hid. unfold single_by_id.
      destruct (rooms d !! roomId); [intros [= <- _]; by left|].
      destruct (uuid_in roomId) as [u|]; [|discriminate].
      destruct (rooms d !! u); [intros [= <- _]; by right | discriminate].
    + by apply single_by_id_Ok in Hid.
    + change (checked_in_count k d) with (length (checked_in_bookings k d)).
      by rewrite Hbs.
    + simpl. lia.
Qed.

(** [getRoomWithBooking] on the sample hotel: R101 with its guest, null
    for a uuid of no room, 22P02 for a text that is no uuid. *)
Example getRoomWithBooking_occupied_db :
  getRoomWithBooking delivered "r101" Sample.occupied_db
  = Ok (Some (Sample.R101 occupied, [("b1", Sample.B1)]))
  ∧ getRoomWithBooking delivered "a0eebc99-9c0b-4ef8-bb6d-6bb9bd380a11"
      Sample.occupied_db = Ok None
  ∧ getRoomWithBooking delivered "not-a-uuid" Sample.occupied_db
    = Err invalid_text_representation.
Proof. split_and!; vm_compute; reflexivity. Qed.

(** X12: after a delivered [checkIn] of a booking whose room exists,
    [getRoomWithBooking] for that room returns the room, now occupied,
    and the booking is among the checked-in bookings it lists. *)
Theorem checkIn_then_getRoomWithBooking (d : db) (i : uuid) (b : Booking.t)
    (r : uuid) (room : Room.t) (t_in t_upd : timestamptz) :
  bookings d !! i = Some b →
  Booking.room_id b = Some r →
  rooms d !! r = Some room →
  ∃ bs,
    getRoomWithBooking delivered r (checkIn delivered delivered t_in t_upd i d).2
    = Ok (Some (Room.set_status occupied room, bs))
    ∧ (i, Booking.set_checked_in t_in t_upd b) ∈ bs.
Proof.
  intros Hb Hr Hroom. rewrite (checkIn_delivered d i b Hb). simpl.
  set (d1 := mkdb _ _ _ _ _).
  assert ((i, Booking.set_checked_in t_in t_upd b) ∈ checked_in_bookings r d1) as Hin.
  { apply elem_of_checked_in_bookings. split; [apply lookup_insert_eq | done]. }
  assert (rooms d1 !! r = Some (Room.set_status occupied room)) as Hroom1.
  { unfold d1. cbn [rooms]. rewrite lookup_update_room, decide_True by done.
    by rewrite Hroom. }
  unfold getRoomWithBooking.
  change (single_by_id r _) with (single_by_id r (rooms d1)).
  rewrite (single_by_id_hit _ _ _ Hroom1).
  destruct (checked_in_bookings r d1) as [|kb bs] eqn:Hbs.
  - by apply elem_of_nil in Hin.
  - by eexists.
Qed.

Lemma checkIn_then_getRoomWithBooking_witness :
  bookings Sample.checked_out_db !! "b1" = Some (Sample.B "Ann" checked_out 19732)
  ∧ ∃ bs,
      getRoomWithBooking delivered "r101"
        (checkIn delivered delivered 7 8 "b1" Sample.checked_out_db).2
      = Ok (Some (Room.set_status occupied (Sample.R101 available), bs))
      ∧ ("b1", Booking.set_checked_in 7 8 (Sample.B "Ann" checked_out 19732)) ∈ bs.
Proof.
  assert (bookings Sample.checked_out_db !! "b1"
          = Some (Sample.B "Ann" checked_out 19732)) as Hb by reflexivity.
  split; [exact Hb|].
  exact (checkIn_then_getRoomWithBooking Sample.checked_out_db "b1" _ "r101"
           (Sample.R101 available) 7 8 Hb eq_refl eq_refl).
Defined.

(** X13: a booking created for a room can be checked in straight away:
    the room it references exists, the check-in succeeds, and afterwards
    the booking is checked in and the room is occupied. *)
Theorem createBooking_then_checkIn (now : timestamptz) (u : uuid)
    (p : PartialBooking.t) (d : db) (r : uuid) (data : uuid * Booking.t) (d1 : db)
    (t_in t_upd : timestamptz) :
  createBooking delivered now u p d = (Ok data, d1) →
  PartialBooking.room_id p = Some r →
  ∃ room d2,
    rooms d !! r = Some room
    ∧ checkIn delivered delivered t_in t_upd data.1 d1
      = (Ok (Booking.set_checked_in t_in t_upd data.2), d2)
    ∧ bookings d2 !! data.1 = Some (Booking.set_checked_in t_in t_upd data.2)
    ∧ rooms d2 !! r = Some (Room.set_status occupied room).
Proof.
  unfold createBooking.
  destruct (insert_bookings now u p d) as [data'|] eqn:Hins; [|discriminate].
  intros [= <- <-] Hr.
  assert (is_Some (rooms d !! r)) as [room Hroom].
  { revert Hins. unfold insert_bookings.
    destruct (bookings_row now p) as [row|] eqn:Hrow; [|discriminate]. simpl.
    apply bookings_row_Ok in Hrow as (_ & _ & _ & _ & _ & _ & Hrid).
    destruct (bool_decide _); [|discriminate]. simpl.
    destruct (references (Booking.hotel_id row) _); [|discriminate]. simpl.
    rewrite Hrid, Hr. simpl. case_bool_decide; [done | discriminate]. }
  apply insert_bookings_Ok in Hins as (Hrow & _ & _).
  apply bookings_row_Ok in Hrow as (_ & _ & _ & _ & _ & _ & Hrid).
  exists room. eexists. split; [done|].
  rewrite (checkIn_delivered _ data'.1 data'.2) by apply lookup_insert_eq.
  split; [done|]. simpl. split; [apply lookup_insert_eq|].
  rewrite lookup_update_room, decide_True by congruence. by rewrite Hroom.
Qed.

Lemma createBooking_then_checkIn_witness :
  ∃ room d2,
    rooms Sample.empty_db !! "r101" = Some room
    ∧ bookings d2 !! "b1"
      = Some (Booking.set_checked_in 30 30
                (Booking.mk (Some "h1") (Some "r101") "Ann" None None 19730 19732
                   None None confirmed 20000 pending false 10 10))
    ∧ rooms d2 !! "r101" = Some (Room.set_status occupied room).
Proof.
  destruct (createBooking_then_checkIn 10 "b1" (Sample.request "Ann" 19730 19732 20000)
              Sample.empty_db "r101" _ _ 30 30 eq_refl eq_refl)
    as (room & d2 & Hroom & _ & Hb & Hr).
  exists room, d2. split; [exact Hroom|]. split; [exact Hb | exact Hr].
Defined.

(** X14: a delivered [checkIn] followed by a delivered [checkOut] of the
    same booking leaves the booking checked out with both actual times
    set, and its room available with [last_checkout] set; every other
    column of the room is as before the check-in. *)
Theorem checkIn_then_checkOut (d : db) (i : uuid) (b : Booking.t) (r : uuid)
    (room : Room.t) (t_in t_upd t_out t_upd' t_room : timestamptz) :
  bookings d !! i = Some b →
  Booking.room_id b = Some r →
  rooms d !! r = Some room →
  let d1 := (checkIn delivered delivered t_in t_upd i d).2 in
  ∃ data d2,
    checkOut delivered delivered t_out t_upd' t_room i d1 = (Ok data, d2)
    ∧ bookings d2 !! i = Some data
    ∧ Booking.status data = checked_out
    ∧ Booking.actual_check_in data = Some t_in
    ∧ Booking.actual_check_out data = Some t_out
    ∧ rooms d2 !! r = Some (Room.set_status_last_checkout available t_room room)
    ∧ (∀ j, j ≠ i → bookings d2 !! j = bookings d !! j)
    ∧ (∀ r', r' ≠ r → rooms d2 !! r' = rooms d !! r').
Proof.
  intros Hb Hr Hroom d1. unfold d1. clear d1.
  rewrite (checkIn_delivered d i b Hb). cbn [snd].
  set (d1 := mkdb _ _ _ _ _).
  assert (bookings d1 !! i = Some (Booking.set_checked_in t_in t_upd b)) as Hb1
    by apply lookup_insert_eq.
  rewrite (checkOut_delivered d1 i _ Hb1).
  eexists _, _. split; [done|].
  simpl. split_and!; try done.
  - apply lookup_insert_eq.
  - rewrite !lookup_update_room, !decide_True by done. by rewrite Hroom.
  - intros j Hj. by rewrite !lookup_insert_ne.
  - intros r' Hr'. rewrite !lookup_update_room, !decide_False; congruence.
Qed.

Lemma checkIn_then_checkOut_witness :
  bookings Sample.checked_out_db !! "b1" = Some (Sample.B "Ann" checked_out 19732)
  ∧ ∃ data d2,
      checkOut delivered delivered 9 9 9 "b1"
        (checkIn delivered delivered 7 8 "b1" Sample.checked_out_db).2
      = (Ok data, d2)
      ∧ Booking.status data = checked_out
      ∧ rooms d2 !! "r101"
        = Some (Room.set_status_last_checkout available 9 (Sample.R101 available)).
Proof.
  assert (bookings Sample.checked_out_db !! "b1"
          = Some (Sample.B "Ann" checked_out 19732)) as Hb by reflexivity.
  split; [exact Hb|].
  destruct (checkIn_then_checkOut Sample.checked_out_db "b1" _ "r101"
              (Sample.R101 available) 7 8 9 9 9 Hb eq_refl eq_refl)
    as (data & d2 & Hrun & _ & Hs & _ & _ & Hroom & _).
  exists data, d2. split; [exact Hrun|]. split; [exact Hs | exact Hroom].
Defined.

(** ** Lists read from the store *)

#[global] Instance desc_by_transitive {A} (f : A → timestamptz) :
  Transitive (desc_by f).
Proof. unfold desc_by. intros a b c Hab Hbc. lia. Qed.

#[global] Instance desc_by_total {A} (f : A → timestamptz) : Total (desc_by f).
Proof. unfold desc_by. intros a b. lia. Qed.

#[global] Instance C_collation_total : Total C_collation.
Proof. intros a b. apply String.leb_total. Qed.

Lemma elem_of_select_bookings hotelId d i b :
  (i, b) ∈ select_bookings hotelId d
  ↔ bookings d !! i = Some b ∧ Booking.hotel_id b = Some hotelId.
Proof.
  unfold select_bookings.
  rewrite merge_sort_Permutation, list_elem_of_filter, elem_of_map_to_list.
  simpl. tauto.
Qed.

Lemma NoDup_fst_filter_map_to_list {V} (P : uuid * V → Prop)
    `{!∀ x, Decision (P x)} (m : gmap uuid V) :
  NoDup (filter P (map_to_list m)).*1.
Proof.
  apply (sublist_NoDup _ (map_to_list m).*1).
  - apply NoDup_fst_map_to_list.
  - apply fmap_sublist, sublist_filter.
Qed.

(** X15: a delivered [getBookingsByHotel] returns every booking of the
    hotel and nothing else, each once, the most recently created first,
    with no limit on their number. *)
Theorem getBookingsByHotel_all_recent_first (hotelId : uuid) (d : db) :
  ∃ data, getBookingsByHotel delivered hotelId d = Ok data
    ∧ StronglySorted (desc_by (λ x, Booking.created_at (row x))) data
    ∧ NoDup (row_id <$> data)
    ∧ length data
      = length (filter (λ kb : uuid * Booking.t, Booking.hotel_id kb.2 = Some hotelId)
                  (map_to_list (bookings d)))
    ∧ (∀ i b, (∃ x, x ∈ data ∧ row_id x = i ∧ row x = b)
              ↔ bookings d !! i = Some b ∧ Booking.hotel_id b = Some hotelId)
    ∧ (∀ x, x ∈ data → x = embed_room d (row_id x, row x)).
Proof.
  eexists. split; [reflexivity|]. split_and!.
  - apply (StronglySorted_fmap _
             (desc_by (λ kb : uuid * Booking.t, Booking.created_at kb.2))); [done|].
    apply StronglySorted_merge_sort; apply _.
  - rewrite <- list_fmap_compose.
    change (row_id ∘ embed_room d) with (fst : uuid * Booking.t → uuid).
    unfold select_bookings. rewrite merge_sort_Permutation.
    apply NoDup_fst_filter_map_to_list.
  - rewrite length_fmap. unfold select_bookings.
    by rewrite merge_sort_Permutation.
  - intros i b. rewrite <- elem_of_select_bookings. split.
    + intros (x & Hx & <- & <-).
      apply list_elem_of_fmap in Hx as ([j c] & -> & Hin). done.
    + intros Hin. exists (embed_room d (i, b)). split; [|done].
      by apply list_elem_of_fmap_2.
  - intros x Hx. by apply list_elem_of_fmap in Hx as ([j c] & -> & Hin).
Qed.

(** X16: whatever the collation, as long as it compares any two room
    numbers, a delivered [getRoomsByHotel] returns every room of the hotel
    and nothing else, each once, in the order of the room numbers. *)
Theorem getRoomsByHotel_all_ordered (collate : relation string)
    `{!∀ a b, Decision (collate a b)} `{!Total collate} (hotelId : uuid) (d : db) :
  ∃ data, getRoomsByHotel collate delivered hotelId d = Ok data
    ∧ Sorted (room_number_asc collate) data
    ∧ NoDup data.*1
    ∧ (∀ r room, (r, room) ∈ data
         ↔ rooms d !! r = Some room ∧ Room.hotel_id room = hotelId).
Proof.
  eexists. split; [reflexivity|]. split_and!.
  - apply Sorted_merge_sort. intros a b. apply (total collate).
  - rewrite merge_sort_Permutation. apply NoDup_fst_filter_map_to_list.
  - intros r room.
    rewrite merge_sort_Permutation, list_elem_of_filter, elem_of_map_to_list.
    simpl. tauto.
Qed.

Lemma getRoomsByHotel_all_ordered_witness :
  ∃ data, getRoomsByHotel C_collation delivered "h1" Sample.empty_db = Ok data
    ∧ ∀ r room, (r, room) ∈ data
        ↔ rooms Sample.empty_db !! r = Some room ∧ Room.hotel_id room = "h1".
Proof.
  destruct (getRoomsByHotel_all_ordered C_collation "h1" Sample.empty_db)
    as (data & Hrun & _ & _ & Hall).
  exists data. split; [exact Hrun | exact Hall].
Defined.

(** X17: the rooms that the booking screen lists after a successful
    [loadRooms] are exactly the available rooms of the selected hotel, and
    the card of each of them offers to book that room; when the request
    fails the list is left as it was. *)
Theorem loadRooms_bookable (collate : relation string)
    `{!∀ a b, Decision (collate a b)} (hotel : uuid * Hotel.t) (d : db)
    (rooms0 : list (uuid * Room.t)) :
  (∀ r room, (r, room) ∈ loadRooms collate delivered (Some hotel) d rooms0
     ↔ rooms d !! r = Some room ∧ Room.hotel_id room = hotel.1
       ∧ Room.status room = available)
  ∧ (∀ room, room ∈ loadRooms collate delivered (Some hotel) d rooms0 →
       bookingCard room = Some (BookRoomButton room.1))
  ∧ loadRooms collate failed (Some hotel) d rooms0 = rooms0.
Proof.
  assert (∀ r room, (r, room) ∈ loadRooms collate delivered (Some hotel) d rooms0
     ↔ rooms d !! r = Some room ∧ Room.hotel_id room = hotel.1
       ∧ Room.status room = available) as Hall.
  { intros r room. unfold loadRooms, getRoomsByHotel.
    rewrite list_elem_of_filter, merge_sort_Permutation, list_elem_of_filter,
      elem_of_map_to_list. simpl. tauto. }
  split_and!; [done| |done].
  intros [r room] Hin. apply Hall in Hin as (_ & _ & Hs).
  unfold bookingCard, getActionButton. simpl. by rewrite Hs.
Qed.

Lemma head_StronglySorted {A} (R : relation A) (l : list A) x y :
  StronglySorted R l → head l = Some x → y ∈ l → x = y ∨ R x y.
Proof.
  intros Hs Hh Hy. destruct l as [|z l]; simplify_eq/=.
  apply StronglySorted_cons in Hs as [Hall _].
  apply elem_of_cons in Hy as [-> | Hy]; [by left | right].
  by apply (proj1 (Forall_forall _ _) Hall).
Qed.

(** X18: the hotel that a screen selects on a successful [loadHotels] is
    a hotel of the store and no hotel was created after it; no hotel is
    selected exactly when the store has none. *)
Theorem loadHotels_most_recent (d : db) :
  (∀ i h, loadHotels delivered d = Some (i, h) →
     hotels d !! i = Some h
     ∧ ∀ j h', hotels d !! j = Some h' →
         (Hotel.created_at h' ≤ Hotel.created_at h)%Z)
  ∧ (loadHotels delivered d = None ↔ hotels d = ∅).
Proof.
  unfold loadHotels, getHotels.
  set (R := desc_by (λ kh : uuid * Hotel.t, Hotel.created_at kh.2)).
  assert (∀ kh, kh ∈ merge_sort R (map_to_list (hotels d))
                ↔ hotels d !! kh.1 = Some kh.2) as Hin.
  { intros [j h']. by rewrite merge_sort_Permutation, elem_of_map_to_list. }
  split.
  - intros i h Hhead. split.
    + apply (Hin (i, h)). by apply head_Some_elem_of.
    + intros j h' Hj.
      destruct (head_StronglySorted R (merge_sort R (map_to_list (hotels d)))
                  (i, h) (j, h')) as [[= <- <-] | Hle];
        [apply StronglySorted_merge_sort; apply _ | done | by apply Hin | lia | done].
  - split.
    + intros Hnone. apply map_empty. intros j.
      destruct (hotels d !! j) as [h'|] eqn:Hj; [|done].
      apply (Hin (j, h')) in Hj.
      destruct (merge_sort R (map_to_list (hotels d))); [|done].
      by apply elem_of_nil in Hj.
    + intros ->. by rewrite map_to_list_empty.
Qed.

Lemma loadHotels_most_recent_witness :
  loadHotels delivered Sample.empty_db = Some ("h1", Sample.hotel)
  ∧ hotels Sample.empty_db !! "h1" = Some Sample.hotel.
Proof.
  assert (loadHotels delivered Sample.empty_db = Some ("h1", Sample.hotel)) as Hl
    by reflexivity.
  split; [exact Hl|].
  exact (proj1 (proj1 (loadHotels_most_recent Sample.empty_db) _ _ Hl)).
Defined.

(** ** The owner dashboard *)

Lemma length_filter_partition {A} (P Q : A → Prop) `{!∀ x, Decision (P x)}
    `{!∀ x, Decision (Q x)} (l : list A) :
  (∀ x, P x → Q x → False) →
  length (filter P l) + length (filter Q l)
    + length (filter (λ x, ¬ P x ∧ ¬ Q x) l) = length l.
Proof.
  intros Hdisj. induction l as [|x l IH]; [done|].
  rewrite !filter_cons.
  destruct (decide (P x)) as [HP|HP], (decide (Q x)) as [HQ|HQ].
  - by destruct (Hdisj x).
  - rewrite decide_False by tauto. simpl. lia.
  - rewrite decide_False by tauto. simpl. lia.
  - rewrite decide_True by tauto. simpl. lia.
Qed.

Lemma length_filter_fmap {A B} (f : A → B) (Q : A → Prop) (P : B → Prop)
    `{!∀ x, Decision (Q x)} `{!∀ y, Decision (P y)} (l : list A) :
  (∀ x, Q x ↔ P (f x)) →
  length (filter Q l) = length (filter P (f <$> l)).
Proof.
  intros HQP. induction l as [|x l IH]; [done|].
  rewrite fmap_cons, !filter_cons.
  destruct (decide (Q x)) as [HQ|HQ].
  - rewrite decide_True by (by apply HQP). simpl. by rewrite IH.
  - rewrite decide_False by (by rewrite <- HQP). done.
Qed.

(** X19: on the dashboard, Total Rooms is the number of rooms of the
    hotel in the store, and Occupied plus Available falls short of it by
    the number of rooms that are neither (under maintenance or being
    cleaned). *)
Theorem dashboard_room_counts (collate : relation string)
    `{!∀ a b, Decision (collate a b)} (hotelId : uuid) (d : db) :
  ∃ roomsData, getRoomsByHotel collate delivered hotelId d = Ok roomsData
    ∧ totalRooms roomsData
      = length (filter (λ kr : uuid * Room.t, Room.hotel_id kr.2 = hotelId)
                  (map_to_list (rooms d)))
    ∧ occupiedRooms roomsData + availableRooms roomsData
      + length (filter (λ room : uuid * Room.t,
                          Room.status room.2 = maintenance
                          ∨ Room.status room.2 = cleaning) roomsData)
      = totalRooms roomsData.
Proof.
  eexists. split; [reflexivity|]. split.
  - unfold totalRooms. by rewrite merge_sort_Permutation.
  - unfold occupiedRooms, availableRooms, totalRooms.
    set (roomsData := merge_sort _ _).
    rewrite <- (length_filter_partition
                  (λ room : uuid * Room.t, Room.status room.2 = occupied)
                  (λ room : uuid * Room.t, Room.status room.2 = available)
                  roomsData) by congruence.
    f_equal. f_equal. apply list_filter_iff. intros [r room]. simpl.
    destruct (Room.status room); split; intros Hst;
      try (destruct Hst as [Hst1 Hst2]; congruence);
      try (destruct Hst as [Hst|Hst]; discriminate);
      auto; split; discriminate.
Qed.

(** X20: Today Checkouts on the dashboard is computed from the rows that
    [getAutoCheckoutLogs] returns, so it never exceeds 50 and never exceeds
    the number of the hotel's log rows of today; it is that number when
    the hotel has at most 50 log rows in all. *)
Theorem todayCheckouts_capped (toDateString : timestamptz → date)
    (today : timestamptz) (hotelId : uuid) (d : db) :
  let all := filter (λ l, AutoCheckoutLog.hotel_id l = Some hotelId)
               (auto_checkout_logs d) in
  let of_today := filter (λ l, toDateString (AutoCheckoutLog.created_at l)
                               = toDateString today) all in
  ∃ logsData, getAutoCheckoutLogs delivered hotelId d = Ok logsData
    ∧ todayCheckouts toDateString today logsData ≤ 50
    ∧ todayCheckouts toDateString today logsData ≤ length of_today
    ∧ (length all ≤ 50 →
       todayCheckouts toDateString today logsData = length of_today).
Proof.
  intros all of_today. eexists. split; [reflexivity|].
  unfold todayCheckouts.
  set (P := λ l, toDateString (AutoCheckoutLog.created_at l) = toDateString today).
  rewrite (length_filter_fmap log _ P) by done.
  rewrite <- list_fmap_compose, list_fmap_id.
  unfold select_auto_checkout_logs. fold all.
  assert (length (filter P (merge_sort created_at_desc all)) = length of_today)
    as Hsorted.
  { unfold of_today. by rewrite merge_sort_Permutation. }
  split_and!.
  - etrans; [apply length_filter|]. rewrite length_take. lia.
  - rewrite <- Hsorted.
    set (sorted := merge_sort created_at_desc all).
    assert (filter P sorted = filter P (take 50 sorted) ++ filter P (drop 50 sorted))
      as ->.
    { by rewrite <- filter_app, take_drop. }
    rewrite length_app. lia.
  - intros Hfew. rewrite take_ge; [done|].
    by rewrite merge_sort_Permutation.
Qed.

Lemma roomBooking_Some bookings room x :
  roomBooking bookings room = Some x →
  x ∈ bookings ∧ Booking.room_id (row x) = Some room.1
  ∧ Booking.status (row x) = checked_in.
Proof.
  intros Hfind. apply find_some in Hfind as [Hin Hsel].
  apply andb_true_iff in Hsel as [Hr Hs].
  apply bool_decide_eq_true in Hr, Hs. by apply list_elem_of_In in Hin.
Qed.

Lemma roomBooking_None bookings room :
  roomBooking bookings room = None
  ↔ ∀ x, x ∈ bookings →
      ¬ (Booking.room_id (row x) = Some room.1 ∧ Booking.status (row x) = checked_in).
Proof.
  split.
  - intros Hfind x Hin [Hr Hs]. apply list_elem_of_In in Hin.
    apply (find_none _ _ Hfind) in Hin.
    by rewrite !bool_decide_eq_true_2 in Hin.
  - intros Hnone. destruct (roomBooking bookings room) as [x|] eqn:Hfind; [|done].
    apply roomBooking_Some in Hfind as (Hin & Hr & Hs). by destruct (Hnone x).
Qed.

(** X21: on the dashboard the card of a room never offers to book; it
    shows no button at all exactly when the room is not occupied or none
    of the loaded bookings is a checked-in booking of that room -- so a
    room with a checked-in guest whose status is not occupied cannot be
    checked out from the dashboard. *)
Theorem dashboardCard_button (bookings : list BookingRow) (room : uuid * Room.t) :
  (∀ r, dashboardCard bookings room ≠ Some (BookRoomButton r))
  ∧ (dashboardCard bookings room = None
       ↔ Room.status room.2 ≠ occupied
         ∨ ∀ x, x ∈ bookings →
             ¬ (Booking.room_id (row x) = Some room.1
                ∧ Booking.status (row x) = checked_in)).
Proof.
  unfold dashboardCard, getActionButton. rewrite <- roomBooking_None.
  rewrite andb_false_r.
  case_bool_decide as Hocc; destruct (roomBooking bookings room) as [x|].
  - split; [done|]. split; [done|]. by intros [? | [=]].
  - split; [done|]. split; auto.
  - split; [done|]. split; auto.
  - split; [done|]. split; auto.
Qed.

(** X22: when the dashboard, on the bookings it loaded from the store,
    shows a Check Out button on a room's card, the room is occupied and
    the button's booking is a checked-in booking of that room and hotel in
    the store; clicking it checks that booking out and frees that very
    room. *)
Theorem dashboardCard_checkOut (hotelId : uuid) (d : db) (data : list BookingRow)
    (room : uuid * Room.t) (i : uuid) (t_out t_upd t_room : timestamptz) :
  getBookingsByHotel delivered hotelId d = Ok data →
  dashboardCard data room = Some (CheckOutButton i) →
  Room.status room.2 = occupied
  ∧ ∃ b d',
      bookings d !! i = Some b
      ∧ Booking.hotel_id b = Some hotelId
      ∧ Booking.room_id b = Some room.1
      ∧ Booking.status b = checked_in
      ∧ checkOut delivered delivered t_out t_upd t_room i d
        = (Ok (Booking.set_checked_out t_out t_upd b), d')
      ∧ rooms d' !! room.1
        = Room.set_status_last_checkout available t_room <$> rooms d !! room.1.
Proof.
  intros [= <-]. unfold dashboardCard, getActionButton.
  rewrite andb_false_r.
  case_bool_decide as Hocc; [|discriminate].
  destruct (roomBooking _ room) as [x|] eqn:Hfind; [|discriminate].
  intros [= <-]. split; [done|].
  apply roomBooking_Some in Hfind as (Hin & Hr & Hs).
  apply list_elem_of_fmap in Hin as ([j b] & -> & Hin).
  apply elem_of_select_bookings in Hin as [Hb Hh].
  cbn [embed_room row row_id fst snd] in *.
  exists b. eexists. split_and!; try done.
  - by apply checkOut_delivered.
  - simpl. rewrite lookup_update_room. by rewrite decide_True.
Qed.

Lemma dashboardCard_checkOut_witness :
  ∃ data,
    getBookingsByHotel delivered "h1" Sample.occupied_db = Ok data
    ∧ dashboardCard data ("r101", Sample.R101 occupied) = Some (CheckOutButton "b1")
    ∧ ∃ b d',
        bookings Sample.occupied_db !! "b1" = Some b
        ∧ checkOut delivered delivered 7 8 9 "b1" Sample.occupied_db
          = (Ok (Booking.set_checked_out 7 8 b), d')
        ∧ rooms d' !! "r101"
          = Room.set_status_last_checkout available 9
              <$> rooms Sample.occupied_db !! "r101".
Proof.
  eexists. split; [reflexivity|].
  assert (dashboardCard
            (embed_room Sample.occupied_db <$> select_bookings "h1" Sample.occupied_db)
            ("r101", Sample.R101 occupied) = Some (CheckOutButton "b1")) as Hcard
    by (vm_compute; reflexivity).
  split; [exact Hcard|].
  destruct (dashboardCard_checkOut "h1" Sample.occupied_db _
              ("r101", Sample.R101 occupied) "b1" 7 8 9 eq_refl Hcard)
    as (_ & b & d' & Hb & _ & _ & _ & Hrun & Hroom).
  exists b, d'. split; [exact Hb|]. split; [exact Hrun | exact Hroom].
Defined.

(** ** What the store does not check *)

(** X23: the store accepts a second booking of the same room for the same
    dates: after a successful [createBooking] whose key was generated, the
    same request succeeds again under any other free key, and both
    bookings are then in the store. *)
Theorem createBooking_twice (now now' : timestamptz) (u u' : uuid)
    (p : PartialBooking.t) (d d1 : db) (data : uuid * Booking.t) :
  createBooking delivered now u p d = (Ok data, d1) →
  PartialBooking.id p = None →
  bookings d1 !! u' = None →
  ∃ row' d2,
    createBooking delivered now' u' p d1 = (Ok (u', row'), d2)
    ∧ Booking.room_id row' = Booking.room_id data.2
    ∧ Booking.check_in_date row' = Booking.check_in_date data.2
    ∧ Booking.check_out_date row' = Booking.check_out_date data.2
    ∧ bookings d2 !! data.1 = Some data.2
    ∧ bookings d2 !! u' = Some row'.
Proof.
  unfold createBooking, insert_bookings, bookings_row. intros Hrun Hid Hfree.
  rewrite Hid in *. simpl in *.
  destruct (Z.abs _ <? _)%Z; simpl in *; [|discriminate].
  destruct (PartialBooking.guest_name p) as [g|]; simpl in *; [|discriminate].
  destruct (PartialBooking.check_in_date p) as [ci|]; simpl in *; [|discriminate].
  destruct (PartialBooking.check_out_date p) as [co|]; simpl in *; [|discriminate].
  destruct (bool_decide (bookings d !! u = None)); simpl in *; [|discriminate].
  destruct (references (PartialBooking.hotel_id p) (hotels d)) eqn:Hh;
    simpl in *; [|discriminate].
  destruct (references (PartialBooking.room_id p) (rooms d)) eqn:Hr;
    simpl in *; [|discriminate].
  injection Hrun as <- <-. simpl in *.
  rewrite bool_decide_eq_true_2 by done. simpl. rewrite Hh, Hr. simpl.
  eexists _, _. split; [done|]. simpl. split_and!; try done.
  - rewrite lookup_insert_ne; [apply lookup_insert_eq|].
    intros ->. by rewrite lookup_insert_eq in Hfree.
  - apply lookup_insert_eq.
Qed.

Lemma createBooking_twice_witness :
  ∃ row' d2,
    createBooking delivered 20 "b2" (Sample.request "Ann" 19730 19732 20000)
      (createBooking delivered 10 "b1" (Sample.request "Ann" 19730 19732 20000)
         Sample.empty_db).2
    = (Ok ("b2", row'), d2)
    ∧ Booking.room_id row' = Some "r101"
    ∧ is_Some (bookings d2 !! "b1")
    ∧ bookings d2 !! "b2" = Some row'.
Proof.
  destruct (createBooking_twice 10 20 "b1" "b2"
              (Sample.request "Ann" 19730 19732 20000) Sample.empty_db _ _
              eq_refl eq_refl eq_refl)
    as (row' & d2 & Hrun & Hroom & _ & _ & Hb1 & Hb2).
  exists row', d2. split; [exact Hrun|]. split; [exact Hroom|].
  split; [by eexists | exact Hb2].
Defined.

Lemma room_status_history_rows_set_flag now v (rs : gmap uuid Room.t) :
  room_status_history_rows now (set_auto_checkout_enabled v <$> rs)
  = room_status_history_rows now rs.
Proof.
  unfold room_status_history_rows. rewrite map_to_list_fmap.
  induction (map_to_list rs) as [|[r room] l IH]; [done|].
  rewrite fmap_cons, !filter_cons. simpl.
  destruct (decide (checked_out_today_where now room = true)) as [Hsel|Hsel].
  - rewrite decide_True by done. rewrite !fmap_cons. simpl. by rewrite IH.
  - rewrite decide_False by done. done.
Qed.

(** X24: [auto_checkout_rooms] does not read [auto_checkout_enabled]:
    switching the flag of every room on or off before a run gives the
    state that switching it after the run gives; in particular the
    bookings and both audit tables do not depend on the flag. *)
Theorem auto_checkout_rooms_ignores_enabled (d : db) (now : timestamptz) (v : bool) :
  let d' := auto_checkout_rooms now d in
  auto_checkout_rooms now (with_rooms (set_auto_checkout_enabled v <$> rooms d) d)
  = with_rooms (set_auto_checkout_enabled v <$> rooms d') d'.
Proof.
  intros d'. unfold d', auto_checkout_rooms, with_rooms, with_bookings,
    with_auto_checkout_logs, with_room_status_history. simpl.
  assert (update_rooms now (update_bookings now (bookings d))
            (set_auto_checkout_enabled v <$> rooms d)
          = set_auto_checkout_enabled v
            <$> update_rooms now (update_bookings now (bookings d)) (rooms d)) as ->.
  { apply map_eq. intros r.
    rewrite lookup_fmap, !lookup_update_rooms, lookup_fmap.
    destruct (rooms d !! r) as [room|]; [|done]. simpl.
    by case_bool_decide. }
  by rewrite room_status_history_rows_set_flag.
Qed.
